(* ===== verification/_CoqProject ===== *)
-Q . S2P
Prelude.v
Signal.v
Sizing.v
Bracket.v
Alpaca.v
Client.v
Loop.v
Account.v
Output.v
Config.v
Live.v
