(* ===== verification/Prelude.v ===== *)
(** * A verification development of the breakout trading loop (src/src/mvp.py)

    The program is one Python module, [mvp.py], that polls minute bars for a
    small list of stock symbols, evaluates a breakout signal, sizes a
    position from a dollar risk budget and submits bracket orders (a market
    entry with a take-profit and a stop-loss leg) through the Alpaca trading
    and market-data clients.  [main] filters the configured symbols to the
    tradable ones ([ensure_tradable]), then loops forever: fetch the bars of
    all symbols ([get_latest_bars]), and for each symbol read the latest
    close, ask the broker whether a position is open ([already_open]),
    evaluate the signal ([calc_signal]), size the order ([round_qty]) and
    submit it ([place_bracket_market]); sleep [POLL_SEC]; a
    [KeyboardInterrupt] ends the loop, any other exception is printed and
    followed by a sleep.

    ** Files, in dependency order

    - [Prelude] (this file): what the components share.  Python exceptions
      ([PyExn]; [KeyboardInterrupt] is a [BaseException], the others
      [Exception]s); results [res A]; the state-and-exception monad
      [PyM S A := S -> res A * S] with stdpp's [x ← c; k] notation,
      [py_raise], [py_try] (a [try] whose handler chooses the exceptions it
      catches) and [py_lift]; Python keys, [in] and dicts in insertion order
      ([PyKey], [py_in], [dict_set]); slicing and indexing with negative
      indices ([py_slice], [py_getitem]); pandas' [Series.max] ([py_max],
      [None] for the NaN of an empty series); float comparison ([Qltb],
      [py_gt_nan]); the hint databases [pyrun] and [pyrun_rw] and the
      tactic [pyrun].
    - [Signal]: the bar record and [calc_signal] (mvp.py 54-61), in a
      section over the lookback ([LOOKBACK = 20] in the source), with the
      spec's breakout condition [breakout_spec].
    - [Sizing]: the constants of mvp.py 17-23 and [round_qty] (63-67),
      whose [dollars // price] is [py_floordiv], raising
      [ZeroDivisionError] for a zero divisor.
    - [Bracket]: Python's [round(x, 2)] ([py_round2] over
      [round_half_even]), the request records of alpaca.trading.requests
      and the request [bracket_request] that [place_bracket_market] builds
      (73-88).
    - [Alpaca]: the data of the clients (positions, assets, bar rows,
      orders), the printed lines [LogMsg], the trace [Event]s, and the
      interface [Env]: a type class whose operations are the client calls
      [get_stock_bars], [get_all_positions], [submit_order],
      [get_all_assets] and [time.sleep], each a function from an abstract
      environment state to a result and the next state.  [World] pairs the
      environment with the trace; [call], [py_print] and [time_sleep] are
      the primitives.  [runs m P] is a small logic of traces (from any
      world, [m] appends events [evs] and ends with [r] such that
      [P evs r]) with rules for every construct of the monad; [runs_all f]
      states that every event satisfies [f].  The Prop class [NoInterrupt]
      is an environment in which Ctrl+C is never pressed.  Two instances:
      [Paper], a simulated paper account (scripted bar answers, rejected
      symbols, Ctrl+C schedule, orders filled at once), and [Replay], a
      replayed market that never raises [KeyboardInterrupt].
    - [Client]: [get_latest_bars] (37-52) with the frame split per symbol
      ([split_bars], [index_level0], [xs]), [already_open] (69-71),
      [place_bracket_market] (73-90) and [ensure_tradable] (92-99), whose
      dict is a [gmap], whose set a [gset] and whose [sorted] stdpp's
      [merge_sort] on [String.le].
    - [Loop]: [process_symbol] (one iteration of the [for] loop, 117-132),
      [process_symbols] (116-132), [cycle_body] and [cycle_handler] (the
      [try] block and its two [except] clauses, 109-141), [cycle],
      [main_loop] and [main] (101-141); and [symbol_run] / [symbols_run],
      the spec's per-instrument flow (section 4.5) as an inductive relation
      between a symbol's frame, the events it causes and the result.
    - [Account]: the invariant [paper_inv] of the paper account (no two
      accepted orders for one symbol, each with its position) and its
      preservation by the per-symbol loop.
    - [Output]: the text of every [print] ([render]), with the f-string
      formats [{x:.2f}] ([fmt_2f]) and [{qty}], [str(e)] ([str_exc]),
      and the standard output of a trace ([stdout]).
    - [Config]: the module-level set-up (26-35) and the entry point
      (143-144): [load_dotenv] as the union of a [gmap] environment with
      the [.env] assignments (the environment wins, a later line wins),
      [os_getenv], [load_config], the two clients' constructors
      [TradingClient] and [StockHistoricalDataClient] with alpaca-py's
      credential check [validate_credentials] and endpoint choice,
      [module_init], and [run_script], the set-up followed by [main].
    - [Live]: the class [BarsAnswer] of environments whose poll always
      returns a frame, and [LiveMarket], an [Env] instance over a day of
      bars with a clock that [time.sleep] advances, answering a request
      with the bars completed by that time, and with immediate fills.

    ** Modelling choices

    Numbers.  Python floats are exact rationals [Q]; the theorems speak of
    the arithmetic the code means, and the binary rounding of IEEE doubles
    (100 / 0.003 is 33333.333333333336) is not modelled.  [//] is
    [py_floordiv]: [Qfloor] of the exact quotient, and [ZeroDivisionError]
    for a zero divisor as in Python (Q's own [x / 0 = 0] is never used
    in its place); [int] of an integral float is the integer itself,
    [round(x, 2)] round half to even of [100 x], the exact-value semantics
    of CPython's correctly rounded [round].  Share quantities are [Z].

    Effects.  Every client call and every [time.sleep] goes through [Env]
    and is recorded in the trace with its result; [print] never fails and
    records the values its f-string formats.  Nothing is assumed of an
    environment beyond its type, so the loop's theorems hold for every
    broker, every market-data feed and every fault.  Ctrl+C is modelled
    where a blocked program receives it: as a [KeyboardInterrupt] result
    of a client call or of [time.sleep] (whose interface returns only
    whether it was interrupted), at every such point the environment
    chooses.  CPython can also raise it between any two bytecodes, for
    instance during a [print] or in an [except] clause before its first
    call; those points are not modelled, so the theorems that speak of
    [KeyboardInterrupt] cover the interrupts delivered at calls and
    sleeps only.

    Fuel.  [while True] does not terminate; [main_loop n] runs at most [n]
    cycles.  The liveness theorem shows that without Ctrl+C it runs exactly
    [n], returning normally whatever faults occur, so every finite prefix
    of the real, infinite run is covered; the safety theorems hold for
    every [n], and each cycle is finite, with at most four events, so no
    iteration of the real loop blocks or runs away.

    ** Theorems (PROJECT.json lists them as claims C1-C26)

    - The program never trades: [get_latest_bars] tests [(sym,) in
      bars.index.get_level_values(0)], a tuple against strings, and never
      returns a frame ([get_latest_bars_never_data]); hence no run of
      [main] submits an order ([main_never_submits]).
    - Per-symbol processing: refinement of [symbol_run] by
      [process_symbol] and of [symbols_run] by [process_symbols] (whose
      exception case shows that a fault in one symbol ends the cycle's
      loop, a divergence from the spec's per-instrument isolation); every
      order is gated by a position query of the same iteration and sized by
      [round_qty] at the latest close; at most one order per symbol and
      cycle; on a broker whose fills are visible at once, no symbol ever
      gets a second accepted order.
    - Loop: liveness without Ctrl+C; termination with bounded work (each
      cycle makes exactly one market-data request and at most four events,
      so [main_loop n] makes at most [n] requests); scenario 6 (no
      tradable symbol).  A concrete run ([main_interrupt_escapes], not a
      claim) shows Ctrl+C during the back-off sleep escaping [main].
    - [calc_signal]: refinement of [breakout_spec], no exception, ties,
      dependence on the last [lookback + 1] bars only.
    - [round_qty]: the floor characterisation, the risk bound of the sized
      order, the guard that keeps a zero price from raising
      [ZeroDivisionError], and a negative budget.
    - Brackets: legs in order, proper brackets above 5/3 dollars and
      degenerate ones below 1.25 dollars; every submitted request is a
      well-formed bracket ([wf_bracket]: DAY market buy of class BRACKET,
      positive quantity, both legs, stop-loss non-negative and not above
      take-profit).
    - [ensure_tradable]: one asset query, and the sorted, duplicate-free
      list of the requested symbols whose last listed asset is tradable.
    - Output: the whole program's output on any market that answers every
      poll without Ctrl+C: the start line, then "No bars yet..." once per
      cycle.
    - Configuration: the trading client talks to [APCA_API_BASE_URL]
      whatever [paper=True] says (a divergence from the source's comment);
      without an API key the script raises [ValueError] at line 32 before
      any call.

    ** Not modelled

    The HTTP behaviour of the Alpaca SDK: abstracted by [Env], whose
    instances ([Paper], [Replay], [LiveMarket]) are environments to run the
    program in, not models of the Alpaca API; in particular how the API
    answers the program's one bar request for all symbols (which bars, how
    the [limit] is counted) is not modelled.  The clients [module_init]
    builds are not connected to an [Env] instance, whose answers do not
    depend on the endpoint in this model.  The text of [resp.status],
    whose formatting depends on the CPython version, is supplied by the
    environment.  The parsing of
    the [.env] file and python-dotenv's [${VAR}] interpolation: [Config]
    starts from the list of assignments, values taken literally.  pandas
    beyond what the code reads (the level-0 index values, the rows of one
    symbol, the close column).  The imports (mvp.py 1-14).

    IEEE doubles.  The binary rounding of Python floats is not modelled
    (see Numbers above): Rocq's primitive floats compute, but their
    lemmas rest on the axioms of [Corelib.Floats.FloatAxioms], and no
    axiom-free floating-point library is available, so a model on floats
    could only be run on examples, not reasoned about.  Where it shows,
    the exact model differs from CPython on decimal ties that are not
    exact in binary: [f"{1.015:.2f}"] is [1.01] in CPython (the double is
    below 1.015) and [1.02] here.

    ** Plan for the next steps

    1. The interleaving of cycles with a broker whose fills are delayed: a
       step relation on an account with pending orders, extending the
       invariant of [Account] to the race the spec accepts when a fill is
       not yet visible.
    2. Ctrl+C between bytecodes: an [Env] operation consulted at every
       [print] and statement boundary, so that the classification of how
       a cycle ends covers every point CPython can raise
       [KeyboardInterrupt] at. *)

From stdpp Require Export base list sets strings.
From Stdlib Require Export QArith Qround Qminmax Lqa.

Declare Scope py_scope.
Delimit Scope py_scope with py.

(** ** Python exceptions and results *)

(** The exceptions the modelled code can see.  [KeyboardInterrupt] derives
    from [BaseException] only; the others derive from [Exception]. *)
Inductive PyExn : Type :=
| KeyboardInterrupt
| IndexError
| APIError (msg : string)
| ValueError (msg : string)
| ZeroDivisionError (msg : string).

#[export] Instance PyExn_eq_dec : EqDecision PyExn.
Proof. solve_decision. Defined.

(** [isinstance(e, Exception)] *)
Definition is_Exception (e : PyExn) : bool :=
  match e with KeyboardInterrupt => false | _ => true end.

Inductive res (A : Type) : Type :=
| Ok (a : A)
| Exc (e : PyExn).
Arguments Ok {A} a.
Arguments Exc {A} e.

(** ** The state and exception monad *)

Definition PyM (S A : Type) : Type := S -> res A * S.

#[export] Instance PyM_ret S : MRet (PyM S) := fun A a s => (Ok a, s).
#[export] Instance PyM_bind S : MBind (PyM S) := fun A B f m s =>
  match m s with
  | (Ok a, s') => f a s'
  | (Exc e, s') => (Exc e, s')
  end.

Definition py_raise {S A} (e : PyExn) : PyM S A := fun s => (Exc e, s).

(** [try: body except ...]: the handler returns [Some h] for the exceptions
    it catches and [None] for those it lets propagate. *)
Definition py_try {S A} (body : PyM S A) (handler : PyExn -> option (PyM S A)) : PyM S A :=
  fun s =>
    match body s with
    | (Ok a, s') => (Ok a, s')
    | (Exc e, s') =>
        match handler e with
        | Some h => h s'
        | None => (Exc e, s')
        end
    end.

Notation "'raise' e" := (py_raise e) (at level 10) : py_scope.

(** A value computed by code that may raise, inside the monad. *)
Definition py_lift {S A} (r : res A) : PyM S A := fun s => (r, s).

(** ** Python keys and dicts *)

(** The keys the modelled code tests for membership: strings and tuples
    of strings.  A string never equals a tuple. *)
Inductive PyKey : Type :=
| PyStr (s : string)
| PyTuple (items : list string).

#[export] Instance PyKey_eq_dec : EqDecision PyKey.
Proof. solve_decision. Defined.

(** [k in xs] *)
Definition py_in (k : PyKey) (xs : list PyKey) : bool := bool_decide (k ∈ xs).

(** A dict as the association list of its items in insertion order. *)
Definition py_dict (K V : Type) : Type := list (K * V).

(** [d[k] = v]: an existing key keeps its place, a new key goes last. *)
Definition dict_set {K V} `{EqDecision K} (k : K) (v : V) (d : py_dict K V) : py_dict K V :=
  if bool_decide (k ∈ d.*1)
  then map (fun kv => if bool_decide (kv.1 = k) then (k, v) else kv) d
  else d ++ [(k, v)].

(** ** Python lists, slicing and pandas reductions *)

(** The position a Python index denotes in a sequence of length [n], as
    slicing normalises it: negative indices count from the end, and the
    result is clamped to [0..n]. *)
Definition py_norm_index (n : nat) (i : Z) : nat :=
  if (i <? 0)%Z then Z.to_nat (Z.max 0 (Z.of_nat n + i))
  else Z.to_nat (Z.min i (Z.of_nat n)).

(** [xs[start:stop]] *)
Definition py_slice {A} (xs : list A) (start stop : Z) : list A :=
  let a := py_norm_index (length xs) start in
  let b := py_norm_index (length xs) stop in
  take (b - a) (drop a xs).

(** [xs[i]], raising [IndexError] out of range. *)
Definition py_getitem {A} (xs : list A) (i : Z) : res A :=
  let j := if (i <? 0)%Z then (Z.of_nat (length xs) + i)%Z else i in
  if (j <? 0)%Z then Exc IndexError
  else match xs !! Z.to_nat j with Some x => Ok x | None => Exc IndexError end.

(** pandas [Series.max()]: the largest element, NaN ([None]) on an empty
    series. *)
Definition py_max (xs : list Q) : option Q :=
  match xs with
  | [] => None
  | x :: rest => Some (fold_left Qmax rest x)
  end.

(** [x > y] on two floats, as a boolean. *)
Definition Qltb (x y : Q) : bool := negb (Qle_bool y x).

(** [x > m] where [m] may be NaN: a comparison with NaN is [False]. *)
Definition py_gt_nan (x : Q) (m : option Q) : bool :=
  match m with None => false | Some y => Qltb y x end.

(** ** Automation *)

Create HintDb pyrun.
Create Rewrite HintDb pyrun_rw.

(** Unfold one layer of the monad. *)
Ltac pyrun :=
  repeat (unfold mbind, mret, PyM_bind, PyM_ret, py_raise, py_try in *; simpl in *).

(** ** Shared lemmas *)

Lemma Qltb_iff x y : Qltb x y = true <-> x < y.
Proof.
  unfold Qltb. rewrite negb_true_iff. split.
  - intros H. apply Qnot_le_lt. intros Hle. apply Qle_bool_iff in Hle. congruence.
  - intros H. destruct (Qle_bool y x) eqn:E; [|reflexivity].
    apply Qle_bool_iff in E. lra.
Qed.

Lemma Qltb_false x y : Qltb x y = false <-> y <= x.
Proof.
  unfold Qltb. rewrite negb_false_iff. apply Qle_bool_iff.
Qed.

#[export] Hint Rewrite Qltb_iff Qltb_false : pyrun_rw.

#[export] Instance Qltb_proper : Proper (Qeq ==> Qeq ==> eq) Qltb.
Proof.
  intros x x' Hx y y' Hy. destruct (Qltb x' y') eqn:E.
  - apply Qltb_iff. apply Qltb_iff in E. by rewrite Hx, Hy.
  - apply Qltb_false. apply Qltb_false in E. by rewrite Hx, Hy.
Qed.

Lemma fold_Qmax_ge (rest : list Q) (x : Q) :
  x <= fold_left Qmax rest x /\ Forall (fun y => y <= fold_left Qmax rest x) rest.
Proof.
  revert x. induction rest as [|y rest IH]; intros x; cbn [fold_left].
  - split; [lra | constructor].
  - destruct (IH (Qmax x y)) as [H1 H2]. split; [|constructor; [|exact H2]].
    + apply Qle_trans with (Qmax x y); [apply Q.le_max_l | exact H1].
    + apply Qle_trans with (Qmax x y); [apply Q.le_max_r | exact H1].
Qed.

Lemma fold_Qmax_in (rest : list Q) (x : Q) :
  fold_left Qmax rest x = x \/ In (fold_left Qmax rest x) rest.
Proof.
  revert x. induction rest as [|y rest IH]; intros x; cbn [fold_left]; [by left|].
  destruct (IH (Qmax x y)) as [H|H]; [|by right; right].
  rewrite H. unfold Qmax, GenericMinMax.gmax.
  destruct (x ?= y); [by left | by right; left | by left].
Qed.

(** The maximum of a non-empty series is one of its elements and bounds
    all of them. *)
Lemma py_max_spec (xs : list Q) (m : Q) :
  py_max xs = Some m -> In m xs /\ Forall (fun y => y <= m) xs.
Proof.
  destruct xs as [|x rest]; cbn [py_max]; [discriminate|]. intros [= <-].
  destruct (fold_Qmax_ge rest x) as [H1 H2].
  split; [destruct (fold_Qmax_in rest x) as [->|H]; [by left | by right]|].
  by constructor.
Qed.

Lemma py_max_None (xs : list Q) : py_max xs = None <-> xs = [].
Proof. destruct xs; simpl; split; congruence. Qed.

(** [latest > max(window)] holds exactly when the window is non-empty and
    every element of it is below [latest]. *)
Lemma py_gt_nan_max (x : Q) (xs : list Q) :
  py_gt_nan x (py_max xs) = true <-> xs <> [] /\ Forall (fun y => y < x) xs.
Proof.
  destruct (py_max xs) as [m|] eqn:Hm; simpl.
  - apply py_max_spec in Hm as [Hin Hall]. rewrite Qltb_iff. split.
    + intros Hlt. split; [intros ->; inversion Hin|].
      eapply Forall_impl; [exact Hall|]. intros y Hy. cbv beta in *. lra.
    + intros [_ Hall']. rewrite Forall_forall in Hall'. apply Hall'. by apply list_elem_of_In.
  - apply py_max_None in Hm. split; [discriminate|]. by intros [? _].
Qed.

Lemma py_norm_index_neg (n k : nat) :
  (1 <= k <= n)%nat -> py_norm_index n (- Z.of_nat k) = (n - k)%nat.
Proof.
  intros Hk. unfold py_norm_index.
  destruct (Z.ltb_spec (- Z.of_nat k) 0); lia.
Qed.

(** The slice [xs[-(k+1):-1]] of a list with at least [k+1] elements is
    the [k] elements before the last one. *)
Lemma py_slice_before_last {A} (xs : list A) (k : nat) :
  (S k <= length xs)%nat ->
  py_slice xs (- Z.of_nat (S k)) (-1) = take k (drop (length xs - S k) xs).
Proof.
  intros Hk. unfold py_slice.
  rewrite py_norm_index_neg by lia.
  change (-1)%Z with (- Z.of_nat 1)%Z. rewrite py_norm_index_neg by lia.
  f_equal. lia.
Qed.

Lemma py_getitem_last {A} (xs : list A) (x : A) :
  py_getitem (xs ++ [x]) (-1) = Ok x.
Proof.
  unfold py_getitem. rewrite length_app. simpl.
  destruct (Z.ltb_spec (Z.of_nat (length xs + 1) + -1) 0); [lia|].
  replace (Z.to_nat (Z.of_nat (length xs + 1) + -1)) with (length xs) by lia.
  by rewrite lookup_app_r, Nat.sub_diag by lia.
Qed.

Lemma py_getitem_nil {A} (i : Z) : @py_getitem A [] i = Exc IndexError.
Proof.
  unfold py_getitem. simpl.
  by repeat case_match.
Qed.

Lemma py_getitem_neg1 {A} (xs : list A) :
  py_getitem xs (-1) = match last xs with Some x => Ok x | None => Exc IndexError end.
Proof.
  destruct xs as [|y ys] using rev_ind; [apply py_getitem_nil|].
  by rewrite py_getitem_last, last_snoc.
Qed.

