(* ===== verification/Signal.v ===== *)
(** * Signal: the breakout test [calc_signal] (mvp.py 54-61)

    A bar frame of one symbol is the list of its bars in ascending time
    order, as [bars.xs(sym)] returns it.  [calc_signal] reads its [close]
    column: it is true when the latest close is strictly above the maximum
    of the [lookback] closes before it.  The source fixes [lookback] to the
    constant [LOOKBACK = 20]; the section generalises it.  The refinement
    theorem relates it to [breakout_spec], the signal as the spec states it
    (section 4.1). *)

From S2P Require Import Prelude.

Local Open Scope Q_scope.

(** One row of the frame [get_stock_bars(req).df]: the timestamp is the
    second level of the index, the other fields its columns. *)
Record Bar : Type := mkBar {
  timestamp : Z;
  open : Q;
  high : Q;
  low : Q;
  close : Q;
  volume : Q
}.

(** [LOOKBACK = 20] (mvp.py 19) *)
Definition LOOKBACK : nat := 20.

(** [df["close"]] *)
Definition closes (df : list Bar) : list Q := map close df.

Section CalcSignal.

Variable lookback : nat.

(** [calc_signal(df)]; the [IndexError] of [iloc[-1]] on an empty column
    cannot happen after the length test, the theorems show it. *)
Definition calc_signal (df : list Bar) : res bool :=
  if (length df <? lookback + 1)%nat then Ok false
  else
    let rolling_max :=
      py_max (py_slice (closes df) (- Z.of_nat (lookback + 1)) (-1)) in
    match py_getitem (closes df) (-1) with
    | Ok last => Ok (py_gt_nan last rolling_max)
    | Exc e => Exc e
    end.

(** The signal as the spec states it: the closes end with a window of
    [lookback] closes followed by the latest one, the window is not empty,
    and every close of it is strictly below the latest. *)
Definition breakout_spec (cs : list Q) : Prop :=
  exists pre window last,
    cs = pre ++ window ++ [last] /\ length window = lookback /\
    lookback <> 0%nat /\ Forall (fun c => c < last) window.

End CalcSignal.

(** ** Lemmas *)

Lemma closes_app (df1 df2 : list Bar) : closes (df1 ++ df2) = closes df1 ++ closes df2.
Proof. apply map_app. Qed.

Lemma length_closes (df : list Bar) : length (closes df) = length df.
Proof. apply length_map. Qed.

(** A frame long enough for the test splits into a prefix, the window of
    [lookback] bars, and the latest bar; [calc_signal] compares the latest
    close with the maximum of the window's closes. *)
Lemma calc_signal_split (lookback : nat) (df : list Bar) :
  (lookback + 1 <= length df)%nat ->
  exists pre window b,
    df = pre ++ window ++ [b] /\ length window = lookback /\
    calc_signal lookback df = Ok (py_gt_nan (close b) (py_max (closes window))).
Proof.
  intros Hlen.
  destruct (exists_last (l := df)) as [init [b ->]]; [by intros ->; simpl in Hlen; lia|].
  rewrite length_app in Hlen. simpl in Hlen.
  exists (take (length init - lookback) init), (drop (length init - lookback) init), b.
  split; [by rewrite app_assoc, take_drop|].
  split; [rewrite length_drop; lia|].
  unfold calc_signal. rewrite length_app. simpl.
  destruct (Nat.ltb_spec (length init + 1) (lookback + 1)); [lia|].
  rewrite closes_app. simpl. rewrite py_getitem_last.
  replace (lookback + 1)%nat with (S lookback) by lia.
  rewrite py_slice_before_last by (rewrite length_app, length_closes; simpl; lia).
  rewrite length_app, length_closes. simpl.
  replace (length init + 1 - S lookback)%nat with (length init - lookback)%nat by lia.
  rewrite drop_app_le by (rewrite length_closes; lia).
  rewrite take_app_le by (rewrite length_drop, length_closes; lia).
  rewrite take_ge by (rewrite length_drop, length_closes; lia).
  unfold closes. by rewrite skipn_map.
Qed.

(** The window and the latest close of a decomposition are unique. *)
Lemma window_unique (pre w pre' w' : list Q) (l l' : Q) :
  length w = length w' ->
  pre ++ w ++ [l] = pre' ++ w' ++ [l'] -> w = w' /\ l = l'.
Proof.
  intros Hlen Heq. rewrite !app_assoc in Heq.
  apply app_inj_tail in Heq as [Heq ->].
  apply app_inj_2 in Heq as [_ ->]; auto.
Qed.

Lemma calc_signal_short_ok (lookback : nat) (df : list Bar) :
  (length df < lookback + 1)%nat -> calc_signal lookback df = Ok false.
Proof.
  intros H. unfold calc_signal. by destruct (Nat.ltb_spec (length df) (lookback + 1)); [|lia].
Qed.

(** ** Properties *)

(** [calc_signal] always returns a boolean. *)
Lemma calc_signal_ok (lookback : nat) (df : list Bar) :
  exists b, calc_signal lookback df = Ok b.
Proof.
  destruct (Nat.lt_ge_cases (length df) (lookback + 1)) as [H|H].
  - exists false. by apply calc_signal_short_ok.
  - destruct (calc_signal_split lookback df H) as (pre & w & b & _ & _ & ->). by eexists.
Qed.

(** C21: [calc_signal] never raises: the [IndexError] branch of [iloc[-1]]
    is unreachable, so it always returns a boolean. *)
Theorem calc_signal_total (lookback : nat) (df : list Bar) :
  exists b, calc_signal lookback df = Ok b.
Proof. apply calc_signal_ok. Qed.

(** [calc_signal] is true exactly on the spec's breakout condition. *)
Lemma calc_signal_true_iff (lookback : nat) (df : list Bar) :
  calc_signal lookback df = Ok true <-> breakout_spec lookback (closes df).
Proof.
  destruct (Nat.lt_ge_cases (length df) (lookback + 1)) as [H|H].
  - rewrite calc_signal_short_ok by exact H. split; [discriminate|].
    intros (pre & w & l & Heq & Hw & _ & _).
    apply (f_equal length) in Heq. rewrite length_closes, !length_app in Heq.
    simpl in Heq. lia.
  - destruct (calc_signal_split lookback df H) as (pre & w & b & -> & Hw & ->).
    rewrite closes_app, closes_app. simpl.
    split.
    + intros [= Hgt]. apply py_gt_nan_max in Hgt as [Hne Hall].
      exists (closes pre), (closes w), (close b).
      split; [reflexivity|]. split; [by rewrite length_closes|].
      split; [|exact Hall]. intros H0. apply Hne. apply nil_length_inv.
      rewrite length_closes. lia.
    + intros (pre' & w' & l & Heq & Hw' & Hnz & Hall). f_equal.
      apply window_unique in Heq as [<- <-]; [|rewrite length_closes; lia].
      apply py_gt_nan_max. split; [|exact Hall].
      intros Hnil. apply (f_equal length) in Hnil. rewrite length_closes in Hnil.
      simpl in Hnil. lia.
Qed.

(** C5: refinement.  [calc_signal] returns [true] exactly when the closes
    satisfy the spec's breakout condition: a non-empty window of
    [lookback] closes before the latest one, all strictly below it. *)
Theorem calc_signal_refines_spec (lookback : nat) (df : list Bar) :
  calc_signal lookback df = Ok true <-> breakout_spec lookback (closes df).
Proof. apply calc_signal_true_iff. Qed.

(** C22: ties never trigger: when the maximum of the window's closes equals
    the latest close, the signal is false. *)
Theorem calc_signal_tie (lookback : nat) (pre window : list Bar) (b : Bar) (m : Q) :
  length window = lookback ->
  py_max (closes window) = Some m -> m == close b ->
  calc_signal lookback (pre ++ window ++ [b]) = Ok false.
Proof.
  intros Hw Hm Heq.
  destruct (calc_signal lookback (pre ++ window ++ [b])) as [[]|e] eqn:Hs; [|done|].
  - apply calc_signal_true_iff in Hs as (pre' & w' & l & Hsp & Hw' & _ & Hall).
    rewrite !closes_app in Hsp. simpl in Hsp.
    apply window_unique in Hsp as [<- <-]; [|rewrite length_closes; lia].
    apply py_max_spec in Hm as [Hin _]. rewrite Forall_forall in Hall.
    assert (m < close b) by (apply Hall; by apply list_elem_of_In). lra.
  - destruct (calc_signal_ok lookback (pre ++ window ++ [b])). congruence.
Qed.

Lemma calc_signal_tie_witness :
  length [mkBar 1 0 0 0 10 0; mkBar 2 0 0 0 11 0; mkBar 3 0 0 0 9 0] = 3%nat /\
  py_max (closes [mkBar 1 0 0 0 10 0; mkBar 2 0 0 0 11 0; mkBar 3 0 0 0 9 0]) = Some 11 /\
  11 == close (mkBar 4 0 0 0 11 0) /\
  calc_signal 3 ([] ++ [mkBar 1 0 0 0 10 0; mkBar 2 0 0 0 11 0; mkBar 3 0 0 0 9 0]
                    ++ [mkBar 4 0 0 0 11 0]) = Ok false.
Proof.
  split; [reflexivity|]. split; [vm_compute; reflexivity|].
  split; [reflexivity|]. apply calc_signal_tie with 11; vm_compute; reflexivity.
Defined.

(** C23: the signal reads only the last [lookback + 1] bars: older bars in
    front of a long enough frame do not change it. *)
Theorem calc_signal_suffix (lookback : nat) (older df : list Bar) :
  (lookback + 1 <= length df)%nat ->
  calc_signal lookback (older ++ df) = calc_signal lookback df.
Proof.
  intros H.
  destruct (calc_signal_split lookback df H) as (pre & w & b & -> & Hw & ->).
  destruct (calc_signal_split lookback (older ++ pre ++ w ++ [b]))
    as (pre' & w' & b' & Heq & Hw' & ->);
    [rewrite !length_app in *; lia|].
  apply (f_equal closes) in Heq. rewrite !closes_app in Heq. simpl in Heq.
  rewrite app_assoc in Heq.
  apply window_unique in Heq as [Hww Hbb]; [|rewrite !length_closes; lia].
  by rewrite Hww, Hbb.
Qed.

Lemma calc_signal_suffix_witness :
  (3 + 1 <= length [mkBar 1 0 0 0 10 0; mkBar 2 0 0 0 11 0; mkBar 3 0 0 0 9 0;
                    mkBar 4 0 0 0 12 0])%nat /\
  calc_signal 3 ([mkBar 0 0 0 0 50 0] ++
                 [mkBar 1 0 0 0 10 0; mkBar 2 0 0 0 11 0; mkBar 3 0 0 0 9 0;
                  mkBar 4 0 0 0 12 0])
  = calc_signal 3 [mkBar 1 0 0 0 10 0; mkBar 2 0 0 0 11 0; mkBar 3 0 0 0 9 0;
                   mkBar 4 0 0 0 12 0].
Proof. split; [simpl; lia | apply calc_signal_suffix; simpl; lia]. Defined.

(** The spec's scenarios 1 and 2 with [lookback = 3]: closes
    [10, 11, 9, 12] signal, closes [10, 11, 9, 11] do not. *)
Example calc_signal_scenarios :
  calc_signal 3 [mkBar 1 0 0 0 10 0; mkBar 2 0 0 0 11 0; mkBar 3 0 0 0 9 0;
                 mkBar 4 0 0 0 12 0] = Ok true /\
  calc_signal 3 [mkBar 1 0 0 0 10 0; mkBar 2 0 0 0 11 0; mkBar 3 0 0 0 9 0;
                 mkBar 4 0 0 0 11 0] = Ok false.
Proof. split; vm_compute; reflexivity. Qed.
