(* ===== verification/Sizing.v ===== *)
(** * Sizing: the configuration (mvp.py 17-23) and [round_qty] (mvp.py 63-67)

    [round_qty price dollars] is the whole number of shares a budget of
    [dollars] buys at [price], clamped at 0, and 0 for a non-positive price.
    Python's float [//] raises [ZeroDivisionError] for a zero divisor
    ([py_floordiv]); the guard [price <= 0] is what keeps [round_qty] from
    raising, and the theorems show it never does.
    The loop calls it with the budget [DOLLAR_RISK / SL_PCT], so that the
    loss at the stop-loss fraction is about [DOLLAR_RISK].  The theorems
    characterise it as the floor of [dollars / price] and bound the risk of
    the sized order. *)

From S2P Require Import Prelude.

Local Open Scope Q_scope.

(** [SYMBOLS = ["AAPL", "MSFT"]] *)
Definition SYMBOLS : list string := ["AAPL"; "MSFT"]%string.
(** [DOLLAR_RISK = 100] *)
Definition DOLLAR_RISK : Q := 100.
(** [TP_PCT = 0.004] *)
Definition TP_PCT : Q := 4 # 1000.
(** [SL_PCT = 0.003] *)
Definition SL_PCT : Q := 3 # 1000.
(** [POLL_SEC = 30] *)
Definition POLL_SEC : Z := 30.

(** Python's [a // b] on floats, under [int()] (line 66): the floor of
    the quotient, and [ZeroDivisionError] for a zero divisor. *)
Definition py_floordiv (a b : Q) : res Z :=
  if Qeq_bool b 0 then Exc (ZeroDivisionError "float floor division by zero")
  else Ok (Qfloor (a / b)).

(** [round_qty(price, dollars)] *)
Definition round_qty (price dollars : Q) : res Z :=
  if Qle_bool price 0 then Ok 0%Z
  else
    match py_floordiv dollars price with
    | Exc e => Exc e
    | Ok qty => Ok (Z.max qty 0)
    end.

(** The budget the loop passes: [DOLLAR_RISK / SL_PCT] (mvp.py 124). *)
Definition risk_budget : Q := DOLLAR_RISK / SL_PCT.

(** ** Lemmas *)

Lemma Qle_bool_false (q : Q) : Qle_bool q 0 = false -> 0 < q.
Proof. intros E. apply Qnot_le_lt. intros H. apply Qle_bool_iff in H. congruence. Qed.

Lemma round_qty_pos_price (price dollars : Q) :
  0 < price -> round_qty price dollars = Ok (Z.max (Qfloor (dollars / price)) 0).
Proof.
  intros Hp. unfold round_qty, py_floordiv.
  destruct (Qle_bool price 0) eqn:E; [apply Qle_bool_iff in E; lra|].
  destruct (Qeq_bool price 0) eqn:E0; [apply Qeq_bool_iff in E0; lra|]. reflexivity.
Qed.

(** The guard keeps the division from a zero divisor: [round_qty] never
    raises. *)
Lemma round_qty_ok (price dollars : Q) : exists q, round_qty price dollars = Ok q.
Proof.
  destruct (Qle_bool price 0) eqn:E.
  - exists 0%Z. unfold round_qty. by rewrite E.
  - eexists. apply round_qty_pos_price, Qle_bool_false, E.
Qed.

(** Floor of a quotient, multiplied back: [q * p <= d < (q + 1) * p]. *)
Lemma Qfloor_div_bounds (d p : Q) :
  0 < p ->
  inject_Z (Qfloor (d / p)) * p <= d /\ d < inject_Z (Qfloor (d / p) + 1) * p.
Proof.
  intros Hp.
  assert (Hd : d / p * p == d) by (field; lra).
  pose proof (Qfloor_le (d / p)) as H1. pose proof (Qlt_floor (d / p)) as H2.
  split.
  - rewrite <- Hd at 2. apply Qmult_le_compat_r; lra.
  - rewrite <- Hd at 1. apply Qmult_lt_compat_r; lra.
Qed.

(** A positive quantity was sized at a positive price. *)
Lemma round_qty_pos_inv (price dollars : Q) (q : Z) :
  round_qty price dollars = Ok q -> (0 < q)%Z -> 0 < price.
Proof.
  unfold round_qty. destruct (Qle_bool price 0) eqn:E; [intros [= <-]; lia|].
  intros _ _. by apply Qle_bool_false.
Qed.

(** [round_qty] is the floor of [dollars / price] for a positive price. *)
Lemma round_qty_floor_bounds (price dollars : Q) :
  0 < price -> 0 <= dollars ->
  exists q, round_qty price dollars = Ok q /\
    (0 <= q)%Z /\ inject_Z q * price <= dollars /\ dollars < inject_Z (q + 1) * price.
Proof.
  intros Hp Hd. rewrite round_qty_pos_price by exact Hp. eexists. split; [reflexivity|].
  destruct (Qfloor_div_bounds dollars price Hp) as [H1 H2].
  assert (Hq : (0 <= Qfloor (dollars / price))%Z).
  { apply (Qfloor_resp_le 0 (dollars / price)). apply Qle_shift_div_l; lra. }
  rewrite Z.max_l by exact Hq. auto with zarith.
Qed.

(** ** Properties *)

(** C24: a non-positive price gives 0 shares without dividing, so
    [round_qty] does not raise [ZeroDivisionError] at price 0. *)
Theorem round_qty_nonpos_price (price dollars : Q) :
  price <= 0 -> round_qty price dollars = Ok 0%Z.
Proof.
  intros H. unfold round_qty. apply Qle_bool_iff in H. by rewrite H.
Qed.

Lemma round_qty_nonpos_price_witness : 0 <= 0 /\ round_qty 0 100 = Ok 0%Z.
Proof. split; [lra | apply round_qty_nonpos_price; lra]. Defined.

(** C6: for a positive price and a non-negative budget, [round_qty]
    returns the floor of [dollars / price]: the order costs at most the
    budget, and one more share would exceed it. *)
Theorem round_qty_floor (price dollars : Q) :
  0 < price -> 0 <= dollars ->
  exists q, round_qty price dollars = Ok q /\
    (0 <= q)%Z /\ inject_Z q * price <= dollars /\ dollars < inject_Z (q + 1) * price.
Proof. apply round_qty_floor_bounds. Qed.

Lemma round_qty_floor_witness :
  0 < 50 /\ 0 <= 100 /\
  exists q, round_qty 50 100 = Ok q /\
    (0 <= q)%Z /\ inject_Z q * 50 <= 100 /\ 100 < inject_Z (q + 1) * 50.
Proof.
  split; [lra|]. split; [lra|]. apply (round_qty_floor 50 100); lra.
Defined.

(** C25: a negative budget buys nothing. *)
Theorem round_qty_negative_budget (price dollars : Q) :
  dollars < 0 -> round_qty price dollars = Ok 0%Z.
Proof.
  intros Hd. destruct (Qle_bool price 0) eqn:E; [unfold round_qty; by rewrite E|].
  apply Qle_bool_false in E as Hp. rewrite round_qty_pos_price by exact Hp.
  f_equal. apply Z.max_r.
  destruct (Qfloor_div_bounds dollars price Hp) as [_ H2].
  destruct (Z.le_gt_cases (Qfloor (dollars / price)) 0) as [|Hgt]; [assumption|].
  exfalso. assert (H1 : 1 <= inject_Z (Qfloor (dollars / price))).
  { change 1 with (inject_Z 1). rewrite <- Zle_Qle. lia. }
  pose proof (Qfloor_le (dollars / price)).
  assert (0 <= dollars / price) by lra.
  assert (dollars / price < 0) by (apply Qlt_shift_div_r; lra). lra.
Qed.

Lemma round_qty_negative_budget_witness : -1 < 0 /\ round_qty 50 (-1) = Ok 0%Z.
Proof. split; [lra | apply round_qty_negative_budget; lra]. Defined.

(** C15: the order the loop sizes risks at most [DOLLAR_RISK] at the
    stop-loss fraction, and one more share would risk more. *)
Theorem sized_order_risk (price : Q) :
  0 < price ->
  exists q, round_qty price risk_budget = Ok q /\
    inject_Z q * price * SL_PCT <= DOLLAR_RISK /\
    DOLLAR_RISK < inject_Z (q + 1) * price * SL_PCT.
Proof.
  intros Hp.
  destruct (round_qty_floor_bounds price risk_budget Hp) as (q & Hq & _ & H1 & H2);
    [unfold risk_budget, DOLLAR_RISK, SL_PCT; vm_compute; discriminate|].
  exists q. split; [exact Hq|].
  assert (Hb : risk_budget * SL_PCT == DOLLAR_RISK)
    by (unfold risk_budget, SL_PCT, DOLLAR_RISK; field; discriminate).
  split.
  - rewrite <- Hb. apply Qmult_le_compat_r; [exact H1 | vm_compute; discriminate].
  - rewrite <- Hb. apply Qmult_lt_compat_r; [reflexivity | exact H2].
Qed.

Lemma sized_order_risk_witness :
  0 < 50 /\
  exists q, round_qty 50 risk_budget = Ok q /\
    inject_Z q * 50 * SL_PCT <= DOLLAR_RISK /\
    DOLLAR_RISK < inject_Z (q + 1) * 50 * SL_PCT.
Proof. split; [lra | apply (sized_order_risk 50); lra]. Defined.
