(* ===== verification/Bracket.v ===== *)
(** * Bracket: the order request of [place_bracket_market] (mvp.py 73-88)

    [place_bracket_market sym qty price] builds a market buy order of class
    BRACKET with a take-profit leg at [round(price * (1 + TP_PCT), 2)] and
    a stop-loss leg at [round(price * (1 - SL_PCT), 2)], then submits it;
    the submission is in [Client].  Python's [round(x, 2)] on a float is
    correctly rounded: it rounds the exact value of [x] to two decimals,
    ties to even; [py_round2] is that function on exact rationals.  The
    lemmas bound the rounding and show it monotone; the theorems order the
    two legs and describe when a cent-valued price gets a proper bracket;
    [wf_bracket] defines the well-formed requests. *)

From S2P Require Import Prelude Sizing.

Local Open Scope Q_scope.

(** ** Python's [round] *)

(** Round half to even of a rational, as an integer. *)
Definition round_half_even (y : Q) : Z :=
  let f := Qfloor y in
  let d := y - inject_Z f in
  if Qltb d (1 # 2) then f
  else if Qltb (1 # 2) d then (f + 1)%Z
  else if Z.even f then f else (f + 1)%Z.

(** [round(x, 2)] *)
Definition py_round2 (x : Q) : Q := round_half_even (x * 100) # 100.

(** ** The order request (alpaca.trading.requests) *)

Inductive OrderSide : Type := BUY | SELL.
Inductive TimeInForce : Type := DAY | GTC | OPG | CLS | IOC | FOK.
Inductive OrderClass : Type := SIMPLE | BRACKET | OCO | OTO.

#[export] Instance OrderSide_eq_dec : EqDecision OrderSide.
Proof. solve_decision. Defined.
#[export] Instance TimeInForce_eq_dec : EqDecision TimeInForce.
Proof. solve_decision. Defined.
#[export] Instance OrderClass_eq_dec : EqDecision OrderClass.
Proof. solve_decision. Defined.

(** [TakeProfitRequest(limit_price=...)] *)
Record TakeProfitRequest : Type := { limit_price : Q }.
(** [StopLossRequest(stop_price=...)] *)
Record StopLossRequest : Type := { stop_price : Q }.

(** [MarketOrderRequest(symbol=..., qty=..., side=..., time_in_force=...,
    order_class=..., take_profit=..., stop_loss=...)] *)
Record MarketOrderRequest : Type := {
  mo_symbol : string;
  mo_qty : Z;
  mo_side : OrderSide;
  mo_time_in_force : TimeInForce;
  mo_order_class : OrderClass;
  mo_take_profit : option TakeProfitRequest;
  mo_stop_loss : option StopLossRequest
}.

(** The request [place_bracket_market(sym, qty, price)] submits. *)
Definition bracket_request (sym : string) (qty : Z) (price : Q) : MarketOrderRequest :=
  let take_profit := {| limit_price := py_round2 (price * (1 + TP_PCT)) |} in
  let stop_loss := {| stop_price := py_round2 (price * (1 - SL_PCT)) |} in
  {| mo_symbol := sym;
     mo_qty := qty;
     mo_side := BUY;
     mo_time_in_force := DAY;
     mo_order_class := BRACKET;
     mo_take_profit := Some take_profit;
     mo_stop_loss := Some stop_loss |}.

(** The two prices of a request, for the statements below. *)
Definition tp_price (o : MarketOrderRequest) : option Q := limit_price <$> mo_take_profit o.
Definition sl_price (o : MarketOrderRequest) : option Q := stop_price <$> mo_stop_loss o.

(** The orders the strategy means to send: a DAY market buy of class
    BRACKET for a positive quantity, with both legs present, non-negative
    and the stop-loss not above the take-profit. *)
Definition wf_bracket (o : MarketOrderRequest) : Prop :=
  mo_side o = BUY /\ mo_time_in_force o = DAY /\ mo_order_class o = BRACKET /\
  (0 < mo_qty o)%Z /\
  exists tp sl, tp_price o = Some tp /\ sl_price o = Some sl /\ 0 <= sl <= tp.

(** A price that is a whole number of cents. *)
Definition is_cents (p : Q) : Prop := exists c : Z, p == c # 100.

(** ** Lemmas on rounding *)

Lemma inject_Z_succ (z : Z) : inject_Z (z + 1) == inject_Z z + 1.
Proof. by rewrite inject_Z_plus. Qed.

Lemma Qmake_100 (z : Z) : (z # 100) == inject_Z z / 100.
Proof. unfold Qeq, inject_Z, Qdiv, Qmult, Qinv. simpl. lia. Qed.

(** Round half to even is within one half of its argument. *)
Lemma round_half_even_error (y : Q) :
  y - (1 # 2) <= inject_Z (round_half_even y) <= y + (1 # 2).
Proof.
  unfold round_half_even.
  pose proof (Qfloor_le y). pose proof (Qlt_floor y). rewrite inject_Z_succ in *.
  destruct (Qltb (y - inject_Z (Qfloor y)) (1 # 2)) eqn:E1;
    autorewrite with pyrun_rw in E1; [lra|].
  destruct (Qltb (1 # 2) (y - inject_Z (Qfloor y))) eqn:E2;
    autorewrite with pyrun_rw in E2; [rewrite inject_Z_succ; lra|].
  destruct (Z.even (Qfloor y)); [lra | rewrite inject_Z_succ; lra].
Qed.

#[export] Instance round_half_even_proper : Proper (Qeq ==> eq) round_half_even.
Proof.
  intros y y' H. unfold round_half_even.
  rewrite (Qfloor_comp y y' H).
  assert (Hd : y - inject_Z (Qfloor y') == y' - inject_Z (Qfloor y')) by (rewrite H; reflexivity).
  cbv zeta. rewrite (Qltb_proper _ _ Hd (1 # 2) (1 # 2) (Qeq_refl _)).
  by rewrite (Qltb_proper (1 # 2) (1 # 2) (Qeq_refl _) _ _ Hd).
Qed.

Lemma round_half_even_mono (y y' : Q) :
  y <= y' -> (round_half_even y <= round_half_even y')%Z.
Proof.
  intros Hle. destruct (Qle_lt_or_eq _ _ Hle) as [Hlt|Heq].
  - pose proof (round_half_even_error y). pose proof (round_half_even_error y').
    destruct (Z.le_gt_cases (round_half_even y) (round_half_even y')) as [|Hgt]; [assumption|].
    exfalso. assert (inject_Z (round_half_even y' + 1) <= inject_Z (round_half_even y))
      by (rewrite <- Zle_Qle; lia).
    rewrite inject_Z_succ in *. lra.
  - rewrite Heq. lia.
Qed.

Lemma round_half_even_int (c : Z) (d : Q) :
  - (1 # 2) < d < 1 # 2 -> round_half_even (inject_Z c + d) = c.
Proof.
  intros Hd. pose proof (round_half_even_error (inject_Z c + d)) as Herr.
  destruct (Z.lt_trichotomy (round_half_even (inject_Z c + d)) c) as [H|[H|H]]; [|exact H|];
    exfalso.
  - assert (inject_Z (round_half_even (inject_Z c + d) + 1) <= inject_Z c)
      by (rewrite <- Zle_Qle; lia). rewrite inject_Z_succ in *. lra.
  - assert (inject_Z (c + 1) <= inject_Z (round_half_even (inject_Z c + d)))
      by (rewrite <- Zle_Qle; lia). rewrite inject_Z_succ in *. lra.
Qed.

Lemma py_round2_times100 (x : Q) : py_round2 x * 100 == inject_Z (round_half_even (x * 100)).
Proof. unfold py_round2, Qeq, Qmult, inject_Z. simpl. lia. Qed.

Lemma cents_times100 (c : Z) : (c # 100) * 100 == inject_Z c.
Proof. unfold Qeq, Qmult, inject_Z. simpl. lia. Qed.




Lemma py_round2_near_cent (c : Z) (x : Q) :
  (c # 100) - (1 # 200) < x < (c # 100) + (1 # 200) -> py_round2 x = c # 100.
Proof.
  intros Hx. unfold py_round2. f_equal.
  assert (Hy : x * 100 == inject_Z c + (x * 100 - inject_Z c)) by ring.
  rewrite Hy. apply round_half_even_int.
  pose proof (cents_times100 c). lra.
Qed.

(** [round(x, 2)] is monotone. *)
Lemma py_round2_le (x y : Q) : x <= y -> py_round2 x <= py_round2 y.
Proof.
  intros Hle. pose proof (py_round2_times100 x). pose proof (py_round2_times100 y).
  assert (Hxy : x * 100 <= y * 100) by lra.
  apply round_half_even_mono in Hxy. rewrite Zle_Qle in Hxy. lra.
Qed.

(** The request of a positive quantity at a positive price is well formed. *)
Lemma bracket_request_wf (sym : string) (qty : Z) (price : Q) :
  (0 < qty)%Z -> 0 < price -> wf_bracket (bracket_request sym qty price).
Proof.
  intros Hq Hp. do 4 (split; [done|]). do 2 eexists. do 2 (split; [reflexivity|]).
  unfold TP_PCT, SL_PCT. split.
  - apply (Qle_trans _ (py_round2 0)); [discriminate | apply py_round2_le; lra].
  - apply py_round2_le. lra.
Qed.

(** ** Properties *)

(** C16: for any non-negative reference price, the bracket's stop-loss leg
    is never above its take-profit leg. *)
Theorem bracket_legs_ordered (sym : string) (qty : Z) (price : Q) :
  0 <= price ->
  exists tp sl, tp_price (bracket_request sym qty price) = Some tp /\
                sl_price (bracket_request sym qty price) = Some sl /\ sl <= tp.
Proof.
  intros Hp. do 2 eexists. split; [reflexivity|]. split; [reflexivity|].
  apply py_round2_le. unfold TP_PCT, SL_PCT. lra.
Qed.

Lemma bracket_legs_ordered_witness :
  0 <= 50 /\
  exists tp sl, tp_price (bracket_request "AAPL" 666 50) = Some tp /\
                sl_price (bracket_request "AAPL" 666 50) = Some sl /\ sl <= tp.
Proof. split; [lra | apply bracket_legs_ordered; lra]. Defined.



(** C17: for a whole-cent price below 5/4 dollars the rounding swallows the
    take-profit margin: the take-profit leg equals the entry price, and
    below 5/3 dollars the stop-loss leg equals it too. *)
Theorem bracket_degenerate_low_price (sym : string) (qty : Z) (c : Z) :
  0 < (c # 100) < (5 # 4) ->
  tp_price (bracket_request sym qty (c # 100)) = Some (c # 100) /\
  sl_price (bracket_request sym qty (c # 100)) = Some (c # 100).
Proof.
  intros Hp. unfold tp_price, sl_price, bracket_request. simpl. unfold TP_PCT, SL_PCT.
  rewrite !py_round2_near_cent with (c := c); [done| lra | lra].
Qed.

Lemma bracket_degenerate_low_price_witness :
  0 < (100 # 100) < (5 # 4) /\
  tp_price (bracket_request "SIRI" 10 (100 # 100)) = Some (100 # 100) /\
  sl_price (bracket_request "SIRI" 10 (100 # 100)) = Some (100 # 100).
Proof.
  split; [split; vm_compute; reflexivity | apply bracket_degenerate_low_price].
  split; vm_compute; reflexivity.
Defined.
