(* ===== verification/Alpaca.v ===== *)
(** * Alpaca: the world the program talks to

    The data the Alpaca clients exchange with mvp.py (positions, assets,
    bar rows, orders), the interface [Env] through which every call of the
    trading client, the data client and [time.sleep] goes, and the trace of
    [Event]s the program produces.  [Env] is a type class over an abstract
    environment state: a call receives the state and returns its result,
    possibly an exception, with the next state.  [time.sleep] can only be
    interrupted by Ctrl+C, so its interface returns whether it was.  The
    program's theorems quantify over every instance; [Paper] is one
    instance, a simulated paper-trading account that fills accepted orders
    at once, used to run the program on concrete inputs. *)

From S2P Require Import Prelude Signal Sizing Bracket.

Local Open Scope Q_scope.

(** ** Data *)

(** An open position as [trading.get_all_positions()] lists it. *)
Record Position : Type := { pos_symbol : string; pos_qty : Q }.

(** An asset as [trading.get_all_assets(...)] lists it. *)
Record Asset : Type := { asset_symbol : string; asset_tradable : bool }.

(** The response to [trading.submit_order(order)]: [resp.id] and
    [resp.status], each as the text the f-string of line 131 formats it
    to.  alpaca-py's [status] is an [OrderStatus] member of a [(str, Enum)]
    class, whose formatting depends on the CPython version (its value, as
    ["accepted"], before 3.12; ["OrderStatus.ACCEPTED"] from 3.12), so the
    broker of the environment supplies that text; no theorem depends on
    it. *)
Record Order : Type := { order_id : string; order_status : string }.

Inductive TimeFrame : Type := Minute | Hour | Day.

(** [StockBarsRequest(symbol_or_symbols=..., timeframe=..., limit=...)] *)
Record StockBarsRequest : Type := {
  req_symbols : list string;
  req_timeframe : TimeFrame;
  req_limit : nat
}.

(** One row of [data_client.get_stock_bars(req).df]: the first level of
    its (symbol, timestamp) index and the bar. *)
Record BarRow : Type := { row_symbol : string; row_bar : Bar }.

(** The lines mvp.py prints, with the values their f-strings format. *)
Inductive LogMsg : Type :=
| MsgNoTradable
| MsgStarting
| MsgNoBars
| MsgPositionOpen (sym : string)
| MsgQtyZero (sym : string) (price : Q)
| MsgBreakout (sym : string) (qty : Z) (price : Q)
| MsgOrder (id status : string)
| MsgNoSignal (sym : string) (price : Q)
| MsgExiting
| MsgError (e : PyExn).

(** What the program did, in order: each call of the world with its
    result, and each printed line. *)
Inductive Event : Type :=
| EvGetBars (req : StockBarsRequest) (r : res (list BarRow))
| EvGetPositions (r : res (list Position))
| EvSubmit (o : MarketOrderRequest) (r : res Order)
| EvGetAssets (r : res (list Asset))
| EvSleep (secs : Z) (interrupted : bool)
| EvPrint (m : LogMsg).

Definition is_submit (ev : Event) : bool :=
  match ev with EvSubmit _ _ => true | _ => false end.

Definition is_get_bars (ev : Event) : bool :=
  match ev with EvGetBars _ _ => true | _ => false end.

(** An event that shows no Ctrl+C. *)
Definition ev_no_kbi (ev : Event) : bool :=
  match ev with
  | EvGetBars _ (Exc KeyboardInterrupt) | EvGetPositions (Exc KeyboardInterrupt)
  | EvSubmit _ (Exc KeyboardInterrupt) | EvGetAssets (Exc KeyboardInterrupt)
  | EvSleep _ true => false
  | _ => true
  end.

(** ** The interface of the world *)

Class Env (E : Type) : Type := {
  (** [data_client.get_stock_bars(req).df] *)
  get_stock_bars : StockBarsRequest -> E -> res (list BarRow) * E;
  (** [trading.get_all_positions()] *)
  get_all_positions : E -> res (list Position) * E;
  (** [trading.submit_order(order)] *)
  submit_order : MarketOrderRequest -> E -> res Order * E;
  (** [trading.get_all_assets(GetAssetsRequest())] *)
  get_all_assets : E -> res (list Asset) * E;
  (** [time.sleep(secs)]: [true] when Ctrl+C interrupts it *)
  sleep : Z -> E -> bool * E
}.

(** The program's state: the world's and the trace so far. *)
Record World (E : Type) : Type := { w_env : E; w_trace : list Event }.
Arguments w_env {E} w.
Arguments w_trace {E} w.

Section Calls.
Context {E : Type} `{Env E}.

Definition log_event (ev : Event) (w : World E) (e' : E) : World E :=
  {| w_env := e'; w_trace := w_trace w ++ [ev] |}.

(** A call of the world, recorded in the trace with its result. *)
Definition call {A} (op : E -> res A * E) (ev : res A -> Event) : PyM (World E) A :=
  fun w => let '(r, e') := op (w_env w) in (r, log_event (ev r) w e').

(** [print(...)] *)
Definition py_print (m : LogMsg) : PyM (World E) unit :=
  fun w => (Ok tt, log_event (EvPrint m) w (w_env w)).

(** [time.sleep(secs)] raises [KeyboardInterrupt] when interrupted. *)
Definition time_sleep (secs : Z) : PyM (World E) unit :=
  fun w =>
    let '(intr, e') := sleep secs (w_env w) in
    (if intr then Exc KeyboardInterrupt else Ok tt, log_event (EvSleep secs intr) w e').

End Calls.

(** ** A logic of traces

    [runs m P]: from any world, [m] appends some events [evs] to the trace
    and ends with a result [r] such that [P evs r].  The rules below
    compose it along the monad, so that properties of the whole loop
    follow from properties of its parts, for every environment. *)

Section Runs.
Context {E : Type} `{Env E}.

Definition runs {A} (m : PyM (World E) A) (P : list Event -> res A -> Prop) : Prop :=
  forall w, exists evs, w_trace (snd (m w)) = w_trace w ++ evs /\ P evs (fst (m w)).

Lemma runs_mono {A} (m : PyM (World E) A) (P Q : list Event -> res A -> Prop) :
  runs m P -> (forall evs r, P evs r -> Q evs r) -> runs m Q.
Proof. intros Hm HPQ w. destruct (Hm w) as (evs & Ht & HP). eauto. Qed.

Lemma runs_and {A} (m : PyM (World E) A) (P Q : list Event -> res A -> Prop) :
  runs m P -> runs m Q -> runs m (fun evs r => P evs r /\ Q evs r).
Proof.
  intros HP HQ w. destruct (HP w) as (evs & Ht & HPw). destruct (HQ w) as (evs' & Ht' & HQw).
  rewrite Ht in Ht'. apply app_inv_head in Ht' as <-. eauto.
Qed.

Lemma runs_ret {A} (a : A) : runs (mret a) (fun evs r => evs = [] /\ r = Ok a).
Proof. intros w. exists []. by rewrite app_nil_r. Qed.

Lemma runs_lift {A} (r0 : res A) : runs (py_lift r0) (fun evs r => evs = [] /\ r = r0).
Proof. intros w. exists []. by rewrite app_nil_r. Qed.

Lemma runs_bind {A B} (m : PyM (World E) A) (k : A -> PyM (World E) B)
    (P : list Event -> res A -> Prop) (Q : A -> list Event -> res B -> Prop) :
  runs m P -> (forall a, runs (k a) (Q a)) ->
  runs (m ≫= k) (fun evs r =>
    (exists e, P evs (Exc e) /\ r = Exc e) \/
    (exists a evs1 evs2, evs = evs1 ++ evs2 /\ P evs1 (Ok a) /\ Q a evs2 r)).
Proof.
  intros Hm Hk w. unfold mbind, PyM_bind. destruct (Hm w) as (evs1 & Ht1 & HP).
  destruct (m w) as [[a|e] w1] eqn:Hmw; simpl in *.
  - destruct (Hk a w1) as (evs2 & Ht2 & HQ). exists (evs1 ++ evs2).
    split; [by rewrite Ht2, Ht1, app_assoc|]. right. eauto 6.
  - exists evs1. split; [exact Ht1|]. left. eauto.
Qed.

Lemma runs_call {A} (op : E -> res A * E) (ev : res A -> Event) (R : res A -> Prop) :
  (forall e, R (fst (op e))) -> runs (call op ev) (fun evs r => evs = [ev r] /\ R r).
Proof.
  intros HR w. unfold call. specialize (HR (w_env w)).
  destruct (op (w_env w)) as [r e']. exists [ev r]. by split.
Qed.

Lemma runs_print (m : LogMsg) : runs (py_print m) (fun evs r => evs = [EvPrint m] /\ r = Ok tt).
Proof. intros w. by exists [EvPrint m]. Qed.

Lemma runs_sleep (secs : Z) :
  runs (time_sleep secs) (fun evs r => exists b, evs = [EvSleep secs b] /\
                                        r = if b then Exc KeyboardInterrupt else Ok tt).
Proof.
  intros w. unfold time_sleep. destruct (sleep secs (w_env w)) as [b e'].
  exists [EvSleep secs b]. split; [done|]. by exists b.
Qed.

Lemma runs_try {A} (body : PyM (World E) A) (h : PyExn -> option (PyM (World E) A))
    (P : list Event -> res A -> Prop) (Q : PyExn -> list Event -> res A -> Prop) :
  runs body P -> (forall e h', h e = Some h' -> runs h' (Q e)) ->
  runs (py_try body h) (fun evs r =>
    (exists a, P evs (Ok a) /\ r = Ok a) \/
    (exists e evs1 evs2, evs = evs1 ++ evs2 /\ P evs1 (Exc e) /\
       ((h e = None /\ evs2 = [] /\ r = Exc e) \/ Q e evs2 r))).
Proof.
  intros Hb Hh w. unfold py_try. destruct (Hb w) as (evs1 & Ht1 & HP).
  destruct (body w) as [[a|e] w1] eqn:Hbw; simpl in *.
  - exists evs1. split; [exact Ht1|]. left. eauto.
  - destruct (h e) as [h'|] eqn:He.
    + destruct (Hh e h' He w1) as (evs2 & Ht2 & HQ). exists (evs1 ++ evs2).
      split; [by rewrite Ht2, Ht1, app_assoc|]. right. exists e, evs1, evs2.
      split; [done|]. split; [exact HP|]. by right.
    + exists evs1. split; [exact Ht1|]. right. exists e, evs1, []. rewrite app_nil_r.
      split; [done|]. split; [exact HP|]. by left.
Qed.

(** [runs_all f m]: every event [m] performs satisfies [f]. *)
Definition runs_all {A} (f : Event -> bool) (m : PyM (World E) A) : Prop :=
  runs m (fun evs _ => Forall (fun ev => f ev = true) evs).

Lemma runs_all_ret {A} (f : Event -> bool) (a : A) : runs_all f (mret a).
Proof. eapply runs_mono; [apply runs_ret|]. intros evs r [-> _]. constructor. Qed.

Lemma runs_all_lift {A} (f : Event -> bool) (r0 : res A) : runs_all f (py_lift r0).
Proof. eapply runs_mono; [apply runs_lift|]. intros evs r [-> _]. constructor. Qed.

Lemma runs_all_print (f : Event -> bool) (m : LogMsg) :
  f (EvPrint m) = true -> runs_all f (py_print m).
Proof. intros Hf. eapply runs_mono; [apply runs_print|]. intros evs r [-> _]. by constructor. Qed.

Lemma runs_all_sleep (f : Event -> bool) (secs : Z) :
  (forall b, f (EvSleep secs b) = true) -> runs_all f (time_sleep secs).
Proof.
  intros Hf. eapply runs_mono; [apply runs_sleep|]. intros evs r (b & -> & _). by constructor.
Qed.

Lemma runs_all_call {A} (f : Event -> bool) (op : E -> res A * E) (ev : res A -> Event) :
  (forall e, f (ev (fst (op e))) = true) -> runs_all f (call op ev).
Proof.
  intros Hf. eapply runs_mono; [apply (runs_call op ev (fun r => f (ev r) = true)); exact Hf|].
  intros evs r [-> Hr]. by constructor.
Qed.

Lemma runs_all_weaken {A} (f : Event -> bool) (m : PyM (World E) A) (Q : list Event -> res A -> Prop) :
  runs_all f m -> (forall evs r, Forall (fun ev => f ev = true) evs -> Q evs r) -> runs m Q.
Proof. intros Hm HQ. eapply runs_mono; [exact Hm|]. eauto. Qed.

Lemma runs_all_trivial {A} (m : PyM (World E) A) (P : list Event -> res A -> Prop) :
  runs m P -> runs_all (fun _ => true) m.
Proof. intros Hm. eapply runs_mono; [exact Hm|]. intros evs _ _. by apply Forall_true. Qed.

Lemma runs_all_bind {A B} (f : Event -> bool) (m : PyM (World E) A) (k : A -> PyM (World E) B) :
  runs_all f m -> (forall a, runs_all f (k a)) -> runs_all f (m ≫= k).
Proof.
  intros Hm Hk.
  eapply runs_mono; [apply (runs_bind m k (fun evs _ => Forall (fun ev => f ev = true) evs) (fun _ evs _ => Forall (fun ev => f ev = true) evs));
                     [exact Hm | exact Hk]|].
  intros evs r [(e & Hall & _)|(a & evs1 & evs2 & -> & H1 & H2)]; [exact Hall|].
  by apply Forall_app.
Qed.

Lemma runs_all_try {A} (f : Event -> bool) (body : PyM (World E) A)
    (h : PyExn -> option (PyM (World E) A)) :
  runs_all f body -> (forall e h', h e = Some h' -> runs_all f h') -> runs_all f (py_try body h).
Proof.
  intros Hb Hh.
  eapply runs_mono; [apply (runs_try body h (fun evs _ => Forall (fun ev => f ev = true) evs) (fun _ evs _ => Forall (fun ev => f ev = true) evs));
                     [exact Hb | exact Hh]|].
  intros evs r [(a & Hall & _)|(e & evs1 & evs2 & -> & H1 & [(_ & -> & _)|H2])];
    [exact Hall | by rewrite app_nil_r | by apply Forall_app].
Qed.

End Runs.

(** An environment in which Ctrl+C is never pressed: no call returns
    [KeyboardInterrupt] and no sleep is interrupted.  Other faults (network
    errors, rejected orders) remain possible. *)
Class NoInterrupt (E : Type) `{Env E} : Prop := {
  bars_no_kbi : forall req e, fst (get_stock_bars req e) <> Exc KeyboardInterrupt;
  positions_no_kbi : forall e, fst (get_all_positions e) <> Exc KeyboardInterrupt;
  submit_no_kbi : forall o e, fst (submit_order o e) <> Exc KeyboardInterrupt;
  assets_no_kbi : forall e, fst (get_all_assets e) <> Exc KeyboardInterrupt;
  sleep_no_kbi : forall secs e, fst (sleep secs e) = false
}.

(** ** A simulated paper account *)

Module Paper.

Record State : Type := {
  feed : list (res (list BarRow));   (** answers of successive bar requests *)
  positions : list Position;
  assets : list Asset;
  reject : list string;              (** symbols whose orders are refused *)
  orders : list MarketOrderRequest;  (** accepted orders *)
  interrupts : list bool             (** Ctrl+C during successive sleeps *)
}.

Definition with_feed (s : State) (f : list (res (list BarRow))) : State :=
  {| feed := f; positions := positions s; assets := assets s; reject := reject s;
     orders := orders s; interrupts := interrupts s |}.

Definition with_interrupts (s : State) (i : list bool) : State :=
  {| feed := feed s; positions := positions s; assets := assets s; reject := reject s;
     orders := orders s; interrupts := i |}.

(** An accepted order fills at once and opens a position. *)
Definition fill (s : State) (o : MarketOrderRequest) : State :=
  {| feed := feed s;
     positions := positions s ++ [{| pos_symbol := mo_symbol o; pos_qty := inject_Z (mo_qty o) |}];
     assets := assets s; reject := reject s; orders := orders s ++ [o];
     interrupts := interrupts s |}.

#[export] Instance paper_env : Env State := {|
  get_stock_bars := fun _ s =>
    match feed s with
    | [] => (Ok [], s)
    | r :: rest => (r, with_feed s rest)
    end;
  get_all_positions := fun s => (Ok (positions s), s);
  submit_order := fun o s =>
    if bool_decide (mo_symbol o ∈ reject s)
    then (Exc (APIError "insufficient buying power"), s)
    else (Ok {| order_id := "paper-" +:+ mo_symbol o; order_status := "accepted" |}, fill s o);
  get_all_assets := fun s => (Ok (assets s), s);
  sleep := fun _ s =>
    match interrupts s with
    | [] => (false, s)
    | i :: rest => (i, with_interrupts s rest)
    end
|}.

End Paper.

(** ** Calls in an environment without Ctrl+C *)

Section NoInterruptCalls.
Context {E : Type} `{NoInterrupt E}.

Lemma ev_no_kbi_bars req e : ev_no_kbi (EvGetBars req (fst (get_stock_bars req e))) = true.
Proof. pose proof (bars_no_kbi req e). by destruct (fst _) as [|[]]. Qed.

Lemma ev_no_kbi_positions e : ev_no_kbi (EvGetPositions (fst (get_all_positions e))) = true.
Proof. pose proof (positions_no_kbi e). by destruct (fst _) as [|[]]. Qed.

Lemma ev_no_kbi_submit o e : ev_no_kbi (EvSubmit o (fst (submit_order o e))) = true.
Proof. pose proof (submit_no_kbi o e). by destruct (fst _) as [|[]]. Qed.

Lemma ev_no_kbi_assets e : ev_no_kbi (EvGetAssets (fst (get_all_assets e))) = true.
Proof. pose proof (assets_no_kbi e). by destruct (fst _) as [|[]]. Qed.

(** An uninterrupted sleep returns normally. *)
Lemma runs_sleep_no_kbi (secs : Z) :
  runs (time_sleep secs) (fun evs r => evs = [EvSleep secs false] /\ r = Ok tt).
Proof.
  intros w. unfold time_sleep. pose proof (sleep_no_kbi secs (w_env w)) as Hs.
  destruct (sleep secs (w_env w)) as [b e']. simpl in Hs. subst b. by exists [EvSleep secs false].
Qed.

Lemma runs_all_sleep_no_kbi (f : Event -> bool) (secs : Z) :
  f (EvSleep secs false) = true -> runs_all f (time_sleep secs).
Proof.
  intros Hf. eapply runs_mono; [apply runs_sleep_no_kbi|]. intros evs r [-> _]. by constructor.
Qed.

End NoInterruptCalls.

#[export] Hint Resolve ev_no_kbi_bars ev_no_kbi_positions ev_no_kbi_submit ev_no_kbi_assets : pyrun.

(** ** A replayed market without Ctrl+C *)

(** Replays recorded answers of the bar requests (a frame, or the message
    of a failed request), on an account with no position that accepts
    every order; nobody presses Ctrl+C. *)
Module Replay.

Record State : Type := {
  feed : list (list BarRow + string);
  assets : list Asset;
  orders : list MarketOrderRequest
}.

#[export] Instance replay_env : Env State := {|
  get_stock_bars := fun _ s =>
    match feed s with
    | [] => (Ok [], s)
    | inl rows :: rest => (Ok rows, {| feed := rest; assets := assets s; orders := orders s |})
    | inr msg :: rest => (Exc (APIError msg), {| feed := rest; assets := assets s; orders := orders s |})
    end;
  get_all_positions := fun s => (Ok [], s);
  submit_order := fun o s =>
    (Ok {| order_id := "replay"; order_status := "accepted" |},
     {| feed := feed s; assets := assets s; orders := orders s ++ [o] |});
  get_all_assets := fun s => (Ok (assets s), s);
  sleep := fun _ s => (false, s)
|}.

#[export] Instance replay_no_interrupt : NoInterrupt State.
Proof.
  split; simpl; try (intros; discriminate); try reflexivity.
  intros _ s. destruct (feed s) as [|[]]; discriminate.
Qed.

End Replay.
