(* ===== verification/Client.v ===== *)
(** * Client: the functions of mvp.py that call the world

    [get_latest_bars] (mvp.py 37-52) requests the last [limit] minute bars
    of the symbols and splits the frame per symbol; [already_open]
    (69-71) asks the broker for all positions on every call;
    [place_bracket_market] (73-90) submits the request of [Bracket];
    [ensure_tradable] (92-99) keeps the symbols the broker lists as
    tradable and sorts them.  Each is a computation of the monad over the
    [World] of an arbitrary [Env]. *)

From stdpp Require Import gmap sorting.
From S2P Require Import Prelude Signal Sizing Bracket Alpaca.


Local Open Scope Q_scope.

#[local] Existing Instance Paper.paper_env.

(** [BAR_TIMEFRAME = TimeFrame.Minute] (mvp.py 18) *)
Definition BAR_TIMEFRAME : TimeFrame := Minute.

(** The level-0 values of the frame's index: the symbols of its rows. *)
Definition index_level0 (rows : list BarRow) : list PyKey :=
  map (fun r => PyStr (row_symbol r)) rows.

(** [bars.xs(sym).copy()]: the bars of the rows of [sym], in order. *)
Definition xs (rows : list BarRow) (sym : string) : list Bar :=
  map row_bar (filter (fun r => row_symbol r = sym) rows).

Section Client.
Context {E : Type} `{Env E}.

(** The loop of [get_latest_bars] over the symbols (mvp.py 48-51). *)
Definition split_bars (bars : list BarRow) (symbols : list string) : py_dict string (list Bar) :=
  fold_left
    (fun latest sym =>
       if py_in (PyTuple [sym]) (index_level0 bars)
       then dict_set sym (xs bars sym) latest
       else latest)
    symbols [].

(** [get_latest_bars(symbols, limit)]: [None] for an empty frame. *)
Definition get_latest_bars (symbols : list string) (limit : nat)
    : PyM (World E) (option (py_dict string (list Bar))) :=
  let req := {| req_symbols := symbols; req_timeframe := BAR_TIMEFRAME; req_limit := limit |} in
  bars ← call (get_stock_bars req) (EvGetBars req);
  match bars with
  | [] => mret None
  | _ => mret (Some (split_bars bars symbols))
  end.

(** [any(p.symbol == sym for p in positions)] *)
Definition any_symbol (sym : string) (positions : list Position) : bool :=
  existsb (fun p => bool_decide (pos_symbol p = sym)) positions.

(** [already_open(sym)] *)
Definition already_open (sym : string) : PyM (World E) bool :=
  positions ← call get_all_positions EvGetPositions;
  mret (any_symbol sym positions).

(** [place_bracket_market(sym, qty, price)] *)
Definition place_bracket_market (sym : string) (qty : Z) (price : Q) : PyM (World E) Order :=
  let order := bracket_request sym qty price in
  call (submit_order order) (EvSubmit order).

(** [{a.symbol: a.tradable for a in assets}]: a later asset with the same
    symbol overwrites an earlier one. *)
Definition tradable_map_of (assets : list Asset) : gmap string bool :=
  foldl (fun m a => <[asset_symbol a := asset_tradable a]> m) ∅ assets.

(** The loop of [ensure_tradable] filling the set [tradables]. *)
Definition tradables_of (symbols : list string) (tradable_map : gmap string bool) : gset string :=
  foldl (fun s x => if default false (tradable_map !! x) then {[x]} ∪ s else s) ∅ symbols.

(** [sorted(tradables)] *)
Definition py_sorted (s : gset string) : list string := merge_sort String.le (elements s).

(** [ensure_tradable(symbols)] *)
Definition ensure_tradable (symbols : list string) : PyM (World E) (list string) :=
  assets ← call get_all_assets EvGetAssets;
  let tradable_map := tradable_map_of assets in
  let tradables := tradables_of symbols tradable_map in
  mret (py_sorted tradables).

End Client.

(** ** Lemmas *)

(** A tuple is never among the string keys of the index. *)
Lemma py_in_tuple_index (items : list string) (rows : list BarRow) :
  py_in (PyTuple items) (index_level0 rows) = false.
Proof.
  unfold py_in, index_level0. apply bool_decide_eq_false.
  rewrite list_elem_of_fmap. intros (r & Heq & _). discriminate.
Qed.

(** The loop of [get_latest_bars] never adds a symbol to [latest]. *)
Lemma split_bars_nil (bars : list BarRow) (symbols : list string) :
  split_bars bars symbols = [].
Proof.
  unfold split_bars. induction symbols as [|sym symbols IH]; [reflexivity|].
  simpl. by rewrite py_in_tuple_index.
Qed.

(** The dict comprehension keeps the flag of the last asset of a symbol. *)
Lemma tradable_map_of_lookup (assets : list Asset) (x : string) :
  tradable_map_of assets !! x =
  asset_tradable <$> last (filter (fun a => asset_symbol a = x) assets).
Proof.
  unfold tradable_map_of. induction assets as [|a assets IH] using rev_ind; [done|].
  rewrite foldl_app, filter_app. simpl. rewrite filter_cons, filter_nil.
  case_decide as Hx.
  - subst x. by rewrite lookup_insert_eq, last_snoc.
  - rewrite lookup_insert_ne by done. by rewrite app_nil_r.
Qed.

Lemma tradables_of_foldl (symbols : list string) (tm : gmap string bool) (s : gset string) (x : string) :
  x ∈ foldl (fun s x => if default false (tm !! x) then {[x]} ∪ s else s) s symbols <->
  x ∈ s \/ (x ∈ symbols /\ tm !! x = Some true).
Proof.
  revert s. induction symbols as [|y symbols IH]; intros s; simpl.
  - set_solver.
  - rewrite IH. destruct (tm !! y) as [[]|] eqn:Hy; simpl.
    + set_solver.
    + split; [set_solver|]. intros [Hs|[Hin Htm]]; [by left|].
      apply elem_of_cons in Hin as [->|Hin]; [congruence|]. right. done.
    + split; [set_solver|]. intros [Hs|[Hin Htm]]; [by left|].
      apply elem_of_cons in Hin as [->|Hin]; [congruence|]. right. done.
Qed.

Lemma tradables_of_spec (symbols : list string) (tm : gmap string bool) (x : string) :
  x ∈ tradables_of symbols tm <-> x ∈ symbols /\ tm !! x = Some true.
Proof. unfold tradables_of. rewrite tradables_of_foldl. set_solver. Qed.

Lemma py_sorted_spec (s : gset string) :
  Sorted String.le (py_sorted s) /\ NoDup (py_sorted s) /\
  forall x, x ∈ py_sorted s <-> x ∈ s.
Proof.
  unfold py_sorted. split; [apply Sorted_merge_sort, _|].
  pose proof (merge_sort_Permutation String.le (elements s)) as Hp. split.
  - rewrite Hp. apply NoDup_elements.
  - intros x. rewrite Hp. apply elem_of_elements.
Qed.

(** ** Properties *)

(** C1: [get_latest_bars] never returns the bars of any symbol.  Its
    membership test [(sym,) in bars.index.get_level_values(0)] asks whether
    a one-element tuple is among the symbol strings of the index, which is
    never the case: a non-empty frame yields an empty dict, an empty one
    [None], and a failed request its exception. *)
Theorem get_latest_bars_never_data `{Env E} (symbols : list string) (limit : nat) (w : World E) :
  fst (get_latest_bars symbols limit w) =
  match fst (get_stock_bars {| req_symbols := symbols; req_timeframe := BAR_TIMEFRAME;
                               req_limit := limit |} (w_env w)) with
  | Ok [] => Ok None
  | Ok _ => Ok (Some [])
  | Exc e => Exc e
  end.
Proof.
  unfold get_latest_bars, call. pyrun.
  destruct (get_stock_bars _ (w_env w)) as [[[|row rows]|e] e']; simpl; [done| |done].
  by rewrite split_bars_nil.
Qed.

(** The run of [ensure_tradable] on a successful asset query. *)
Lemma ensure_tradable_run `{Env E} (symbols : list string) (w : World E)
    (assets : list Asset) (e' : E) :
  get_all_assets (w_env w) = (Ok assets, e') ->
  exists r,
    ensure_tradable symbols w = (Ok r, log_event (EvGetAssets (Ok assets)) w e') /\
    Sorted String.le r /\ NoDup r /\
    forall x, x ∈ r <-> x ∈ symbols /\
      asset_tradable <$> last (filter (fun a => asset_symbol a = x) assets) = Some true.
Proof.
  intros Hq. unfold ensure_tradable, call. pyrun. rewrite Hq.
  eexists. split; [reflexivity|].
  destruct (py_sorted_spec (tradables_of symbols (tradable_map_of assets))) as (Hs & Hnd & Hin).
  split; [exact Hs|]. split; [exact Hnd|]. intros x.
  by rewrite Hin, tradables_of_spec, tradable_map_of_lookup.
Qed.

(** C19: [ensure_tradable] makes one asset query and returns, sorted and
    without duplicates, exactly the requested symbols whose last listed
    asset is tradable. *)
Theorem ensure_tradable_spec `{Env E} (symbols : list string) (w : World E)
    (assets : list Asset) (e' : E) :
  get_all_assets (w_env w) = (Ok assets, e') ->
  exists r,
    ensure_tradable symbols w = (Ok r, log_event (EvGetAssets (Ok assets)) w e') /\
    Sorted String.le r /\ NoDup r /\
    forall x, x ∈ r <-> x ∈ symbols /\
      asset_tradable <$> last (filter (fun a => asset_symbol a = x) assets) = Some true.
Proof. apply ensure_tradable_run. Qed.

Lemma ensure_tradable_spec_witness :
  let w := {| w_env := {| Paper.feed := []; Paper.positions := [];
                         Paper.assets := [{| asset_symbol := "MSFT"; asset_tradable := true |};
                                          {| asset_symbol := "AAPL"; asset_tradable := true |}];
                         Paper.reject := []; Paper.orders := []; Paper.interrupts := [] |};
              w_trace := [] |} in
  get_all_assets (w_env w) = (Ok (Paper.assets (w_env w)), w_env w) /\
  exists r,
    ensure_tradable SYMBOLS w = (Ok r, log_event (EvGetAssets (Ok (Paper.assets (w_env w)))) w (w_env w)) /\
    Sorted String.le r /\ NoDup r /\
    forall x, x ∈ r <-> x ∈ SYMBOLS /\
      asset_tradable <$> last (filter (fun a => asset_symbol a = x) (Paper.assets (w_env w))) = Some true.
Proof.
  cbv zeta. split; [reflexivity|]. apply ensure_tradable_spec. reflexivity.
Defined.
