(* ===== verification/Loop.v ===== *)
(** * Loop: the body of [main] (mvp.py 101-141)

    [process_symbol] is one iteration of the [for sym, df in
    bars_map.items()] loop (mvp.py 116-132) and [process_symbols] the whole
    loop; [cycle] is one iteration of [while True] with its two exception
    handlers (mvp.py 109-141); [main_loop n] runs at most [n] cycles and
    [main] filters the symbols and starts the loop (mvp.py 101-108).

    [symbol_run] is the abstract specification of one symbol's processing,
    the gate, signal, size and execute steps of the spec (section 4.5),
    as the events it performs and its result; [symbols_run] chains it over
    the dict.  The refinement theorem shows that the code implements it,
    and the safety and type theorems about orders are proved from it.  The
    cycle theorems bound the work of one iteration and show that, without
    Ctrl+C, every cycle continues whatever the faults. *)

From S2P Require Import Prelude Signal Sizing Bracket Alpaca Client.

Local Open Scope Q_scope.

#[local] Existing Instances Paper.paper_env Replay.replay_env Replay.replay_no_interrupt.

(** [continue] or [break] of [while True]. *)
Inductive LoopCtl : Type := Continue | Break.

(** [get_latest_bars(tradable_syms)] uses its default [limit=LOOKBACK+1]. *)
Definition LIMIT : nat := LOOKBACK + 1.

Section Loop.
Context {E : Type} `{Env E}.

(** One iteration of [for sym, df in bars_map.items()]. *)
Definition process_symbol (sym : string) (df : list Bar) : PyM (World E) unit :=
  last_price ← py_lift (S := World E) (py_getitem (closes df) (-1));
  is_open ← already_open sym;
  if (is_open : bool) then py_print (MsgPositionOpen sym)
  else
    signal ← py_lift (S := World E) (calc_signal LOOKBACK df);
    if (signal : bool) then
      qty ← py_lift (S := World E) (round_qty last_price risk_budget);
      if bool_decide (qty <= 0)%Z then py_print (MsgQtyZero sym last_price)
      else
        py_print (MsgBreakout sym qty last_price);;
        resp ← place_bracket_market sym qty last_price;
        py_print (MsgOrder (order_id resp) (order_status resp))
    else py_print (MsgNoSignal sym last_price).

(** [for sym, df in bars_map.items(): ...] *)
Fixpoint process_symbols (bars_map : py_dict string (list Bar)) : PyM (World E) unit :=
  match bars_map with
  | [] => mret tt
  | (sym, df) :: rest => process_symbol sym df;; process_symbols rest
  end.

(** The [try] block of one cycle. *)
Definition cycle_body (tradable_syms : list string) : PyM (World E) LoopCtl :=
  bars_map ← get_latest_bars tradable_syms LIMIT;
  match (bars_map : option (py_dict string (list Bar))) with
  | None | Some [] =>
      py_print MsgNoBars;; time_sleep POLL_SEC;; mret Continue
  | Some bm =>
      process_symbols bm;; time_sleep POLL_SEC;; mret Continue
  end.

(** [except KeyboardInterrupt: ... break] and
    [except Exception as e: ... time.sleep(POLL_SEC)]. *)
Definition cycle_handler (e : PyExn) : option (PyM (World E) LoopCtl) :=
  if bool_decide (e = KeyboardInterrupt) then Some (py_print MsgExiting;; mret Break)
  else if is_Exception e then
    Some (py_print (MsgError e);; time_sleep POLL_SEC;; mret Continue)
  else None.

(** One iteration of [while True]. *)
Definition cycle (tradable_syms : list string) : PyM (World E) LoopCtl :=
  py_try (cycle_body tradable_syms) cycle_handler.

(** [while True], for at most [fuel] iterations. *)
Fixpoint main_loop (fuel : nat) (tradable_syms : list string) : PyM (World E) unit :=
  match fuel with
  | O => mret tt
  | S n =>
      ctl ← cycle tradable_syms;
      match (ctl : LoopCtl) with
      | Break => mret tt
      | Continue => main_loop n tradable_syms
      end
  end.

(** [main()], with at most [fuel] cycles. *)
Definition main (fuel : nat) : PyM (World E) unit :=
  tradable_syms ← ensure_tradable SYMBOLS;
  match (tradable_syms : list string) with
  | [] => py_print MsgNoTradable
  | _ => py_print MsgStarting;; main_loop fuel tradable_syms
  end.

End Loop.

(** ** The specification of one symbol's processing *)

Inductive symbol_run (sym : string) (df : list Bar) : list Event -> res unit -> Prop :=
| sr_no_close :
    last (closes df) = None ->
    symbol_run sym df [] (Exc IndexError)
| sr_query_failed p e :
    last (closes df) = Some p ->
    symbol_run sym df [EvGetPositions (Exc e)] (Exc e)
| sr_open p ps :
    last (closes df) = Some p -> any_symbol sym ps = true ->
    symbol_run sym df [EvGetPositions (Ok ps); EvPrint (MsgPositionOpen sym)] (Ok tt)
| sr_no_signal p ps :
    last (closes df) = Some p -> any_symbol sym ps = false ->
    calc_signal LOOKBACK df = Ok false ->
    symbol_run sym df [EvGetPositions (Ok ps); EvPrint (MsgNoSignal sym p)] (Ok tt)
| sr_qty_zero p ps q :
    last (closes df) = Some p -> any_symbol sym ps = false ->
    calc_signal LOOKBACK df = Ok true -> round_qty p risk_budget = Ok q -> (q <= 0)%Z ->
    symbol_run sym df [EvGetPositions (Ok ps); EvPrint (MsgQtyZero sym p)] (Ok tt)
| sr_order p ps q r :
    last (closes df) = Some p -> any_symbol sym ps = false ->
    calc_signal LOOKBACK df = Ok true -> round_qty p risk_budget = Ok q -> (0 < q)%Z ->
    symbol_run sym df
      ([EvGetPositions (Ok ps); EvPrint (MsgBreakout sym q p);
        EvSubmit (bracket_request sym q p) r] ++
       match r with Ok o => [EvPrint (MsgOrder (order_id o) (order_status o))] | Exc _ => [] end)
      (match r with Ok _ => Ok tt | Exc e => Exc e end).

(** The loop over the dict: a symbol whose processing raises ends it. *)
Inductive symbols_run : py_dict string (list Bar) -> list Event -> res unit -> Prop :=
| ssr_nil : symbols_run [] [] (Ok tt)
| ssr_ok sym df rest evs1 evs2 r :
    symbol_run sym df evs1 (Ok tt) -> symbols_run rest evs2 r ->
    symbols_run ((sym, df) :: rest) (evs1 ++ evs2) r
| ssr_exc sym df rest evs1 e :
    symbol_run sym df evs1 (Exc e) ->
    symbols_run ((sym, df) :: rest) evs1 (Exc e).

#[export] Hint Constructors symbol_run symbols_run : pyrun.

(** The orders a trace submits for a symbol. *)
Definition submits_for (sym : string) (ev : Event) : bool :=
  match ev with EvSubmit o _ => bool_decide (mo_symbol o = sym) | _ => false end.

Definition count_submits (sym : string) (evs : list Event) : nat :=
  length (List.filter (submits_for sym) evs).

(** The number of polls of the market data in a trace. *)
Definition count_bars (evs : list Event) : nat := length (List.filter is_get_bars evs).

(** ** Lemmas *)

Ltac trace_eq := simpl; rewrite <- ?app_assoc; reflexivity.

Lemma symbols_run_cons_inv (sym : string) (df : list Bar) (rest : py_dict string (list Bar))
    (evs : list Event) (r : res unit) :
  symbols_run ((sym, df) :: rest) evs r ->
  (exists evs1 evs2, evs = evs1 ++ evs2 /\ symbol_run sym df evs1 (Ok tt) /\ symbols_run rest evs2 r) \/
  (exists e, r = Exc e /\ symbol_run sym df evs (Exc e)).
Proof. inversion 1; subst; [left | right]; eauto 6. Qed.

(** ** Properties *)

(** One iteration of the loop is simulated by [symbol_run]. *)
Lemma process_symbol_sim `{Env E} (sym : string) (df : list Bar) :
  runs (process_symbol sym df) (symbol_run sym df).
Proof.
  intros w. unfold process_symbol, already_open, place_bracket_market, call. pyrun.
  rewrite py_getitem_neg1. destruct (last (closes df)) as [p|] eqn:Hl; simpl;
    [|exists []; split; [by rewrite app_nil_r | by constructor]].
  destruct (get_all_positions (w_env w)) as [[ps|e] e1]; simpl;
    [|eexists; split; [trace_eq | by econstructor]].
  destruct (any_symbol sym ps) eqn:Ha; simpl;
    [eexists; split; [trace_eq | by econstructor]|].
  destruct (calc_signal_ok LOOKBACK df) as [[] Hs]; rewrite Hs; simpl;
    [|eexists; split; [trace_eq | by econstructor]].
  destruct (round_qty_ok p risk_budget) as [q Hrq]; rewrite Hrq; simpl.
  case_bool_decide as Hq; simpl; [eexists; split; [trace_eq | by econstructor]|].
  destruct (submit_order _ _) as [[o|e] e2] eqn:Hsub; simpl.
  - eexists. split; [|eapply (sr_order sym df p ps q (Ok o)); eauto; lia]. trace_eq.
  - eexists. split; [|eapply (sr_order sym df p ps q (Exc e)); eauto; lia]. trace_eq.
Qed.

(** C3: refinement.  One iteration of the [for] loop implements
    [symbol_run]: it reads the latest close, queries the positions, and
    then skips an open position, reports no signal, reports a zero
    quantity, or submits the bracket order sized by [round_qty] at the
    latest close; an exception of the query or of the submission ends it
    with that exception. *)
Theorem process_symbol_refines `{Env E} (sym : string) (df : list Bar) :
  runs (process_symbol sym df) (symbol_run sym df).
Proof. apply process_symbol_sim. Qed.

(** The loop over the dict is simulated by [symbols_run]. *)
Lemma process_symbols_sim `{Env E} (bars_map : py_dict string (list Bar)) :
  runs (process_symbols bars_map) (symbols_run bars_map).
Proof.
  induction bars_map as [|[sym df] rest IH]; simpl.
  - eapply runs_mono; [apply runs_ret|]. intros evs r [-> ->]. constructor.
  - eapply runs_mono;
    [apply (runs_bind _ _ (symbol_run sym df) (fun _ => symbols_run rest));
     [apply process_symbol_sim | intros; exact IH]|].
    intros evs r [(e & Hs & ->)|([] & evs1 & evs2 & -> & Hs & Hr)]; eauto with pyrun.
Qed.

(** C14: refinement.  The [for] loop implements [symbols_run]: the
    symbols are processed in the dict's order, and the first symbol whose
    processing raises ends the loop with that exception. *)
Theorem process_symbols_refines `{Env E} (bars_map : py_dict string (list Bar)) :
  runs (process_symbols bars_map) (symbols_run bars_map).
Proof. apply process_symbols_sim. Qed.

(** The only submission of a symbol's processing is its bracket order,
    right after the position query that showed no position and the
    breakout line. *)
Lemma symbol_run_submit (sym : string) (df : list Bar) (evs : list Event) (r : res unit)
    (o : MarketOrderRequest) (r' : res Order) :
  symbol_run sym df evs r -> EvSubmit o r' ∈ evs ->
  exists p ps q post,
    evs = [EvGetPositions (Ok ps); EvPrint (MsgBreakout sym q p); EvSubmit o r'] ++ post /\
    any_symbol sym ps = false /\ calc_signal LOOKBACK df = Ok true /\
    last (closes df) = Some p /\ round_qty p risk_budget = Ok q /\
    o = bracket_request sym q p /\ (0 < q)%Z.
Proof.
  intros Hrun Hin.
  inversion Hrun as [| |p ps|p ps|p ps q|p ps q r0 Hl Ha Hs Hrq Hq]; subst.
  all: try destruct r0; simpl in Hin; rewrite ?elem_of_cons, ?elem_of_nil in Hin.
  all: repeat match goal with H : _ \/ _ |- _ => destruct H as [H|H] end;
    try discriminate; try done.
  all: injection Hin as -> ->; exists p, ps, q; eexists; split; [reflexivity|]; eauto 7.
Qed.

Lemma count_submits_app (x : string) (evs1 evs2 : list Event) :
  count_submits x (evs1 ++ evs2) = (count_submits x evs1 + count_submits x evs2)%nat.
Proof. unfold count_submits. by rewrite List.filter_app, length_app. Qed.

(** One symbol's processing submits at most one order, for that symbol. *)
Lemma symbol_run_count (sym : string) (df : list Bar) (evs : list Event) (r : res unit) (x : string) :
  symbol_run sym df evs r ->
  (count_submits x evs <= if bool_decide (x = sym) then 1 else 0)%nat.
Proof.
  intros Hrun. inversion Hrun as [| | | | |p ps q r0]; subst; unfold count_submits;
    [..|destruct r0]; simpl; repeat case_bool_decide; simpl; subst; try lia; congruence.
Qed.

Lemma symbols_run_submit (bars_map : py_dict string (list Bar)) (evs : list Event) (r : res unit)
    (o : MarketOrderRequest) (r' : res Order) :
  symbols_run bars_map evs r -> EvSubmit o r' ∈ evs ->
  exists sym df p ps q l1 l2, (sym, df) ∈ bars_map /\
    evs = l1 ++ [EvGetPositions (Ok ps); EvPrint (MsgBreakout sym q p); EvSubmit o r'] ++ l2 /\
    any_symbol sym ps = false /\ calc_signal LOOKBACK df = Ok true /\
    last (closes df) = Some p /\ round_qty p risk_budget = Ok q /\
    o = bracket_request sym q p /\ (0 < q)%Z.
Proof.
  induction 1 as [|sym df rest evs1 evs2 r Hs Hr IH|sym df rest evs1 e Hs]; intros Hin.
  - by apply elem_of_nil in Hin.
  - apply elem_of_app in Hin as [Hin|Hin].
    + destruct (symbol_run_submit _ _ _ _ _ _ Hs Hin) as (p & ps & q & post & -> & Hrest).
      exists sym, df, p, ps, q, [], (post ++ evs2).
      split; [apply elem_of_cons; by left|]. split; [by rewrite <- !app_assoc|]. done.
    + destruct (IH Hin) as (sym' & df' & p & ps & q & l1 & l2 & Hin' & -> & Hrest).
      exists sym', df', p, ps, q, (evs1 ++ l1), l2.
      split; [apply elem_of_cons; by right|]. split; [by rewrite <- !app_assoc|]. done.
  - destruct (symbol_run_submit _ _ _ _ _ _ Hs Hin) as (p & ps & q & post & -> & Hrest).
    exists sym, df, p, ps, q, [], post. split; [apply elem_of_cons; by left|]. done.
Qed.

Lemma symbols_run_count (bars_map : py_dict string (list Bar)) (evs : list Event) (r : res unit) :
  symbols_run bars_map evs r -> NoDup bars_map.*1 ->
  forall x, (count_submits x evs <= 1)%nat /\ (x ∉ bars_map.*1 -> count_submits x evs = 0%nat).
Proof.
  induction 1 as [|sym df rest evs1 evs2 r Hs Hr IH|sym df rest evs1 e Hs]; intros Hnd x.
  - split; [cbn; lia | done].
  - simpl in Hnd. apply NoDup_cons in Hnd as [Hsym Hnd].
    pose proof (symbol_run_count _ _ _ _ x Hs) as Hc. destruct (IH Hnd x) as [H1 H2].
    rewrite count_submits_app. simpl. rewrite elem_of_cons.
    case_bool_decide as Hx; [subst x; rewrite (H2 Hsym); split; [lia|tauto]|].
    split; [lia|]. intros Hn. rewrite H2; [lia|]. tauto.
  - pose proof (symbol_run_count _ _ _ _ x Hs) as Hc. simpl. rewrite elem_of_cons.
    case_bool_decide; split; try lia; tauto.
Qed.

(** C4: safety of the position gate.  Every order the [for] loop submits
    is for a symbol of the dict, comes right after a position query of the
    same iteration that showed no position for that symbol and after the
    breakout line, follows a true signal, and is the bracket order of
    the quantity [round_qty] returns at the latest close, a positive
    one. *)
Theorem process_symbols_gated `{Env E} (bars_map : py_dict string (list Bar)) :
  runs (process_symbols bars_map) (fun evs _ =>
    forall o r', EvSubmit o r' ∈ evs ->
    exists sym df p ps q l1 l2, (sym, df) ∈ bars_map /\
      evs = l1 ++ [EvGetPositions (Ok ps); EvPrint (MsgBreakout sym q p); EvSubmit o r'] ++ l2 /\
      any_symbol sym ps = false /\ calc_signal LOOKBACK df = Ok true /\
      last (closes df) = Some p /\ round_qty p risk_budget = Ok q /\
      o = bracket_request sym q p /\ (0 < mo_qty o)%Z).
Proof.
  eapply runs_mono; [apply process_symbols_sim|]. intros evs r Hrun o r' Hin.
  destruct (symbols_run_submit _ _ _ _ _ Hrun Hin)
    as (sym & df & p & ps & q & l1 & l2 & Hin' & Hevs & Ha & Hs & Hl & Hrq & -> & Hq).
  exists sym, df, p, ps, q, l1, l2. by repeat split.
Qed.

(** C12: at most one order per symbol and cycle: over a dict (whose keys
    are distinct), the [for] loop submits at most one order for each
    symbol, and none for a symbol that is not a key. *)
Theorem process_symbols_one_order `{Env E} (bars_map : py_dict string (list Bar)) :
  NoDup bars_map.*1 ->
  runs (process_symbols bars_map) (fun evs _ =>
    forall x, (count_submits x evs <= 1)%nat /\ (x ∉ bars_map.*1 -> count_submits x evs = 0%nat)).
Proof.
  intros Hnd. eapply runs_mono; [apply process_symbols_sim|].
  intros evs r Hrun. by apply (symbols_run_count bars_map evs r).
Qed.

(** C8: type of the submitted orders: every request the [for] loop sends
    to [submit_order] is a well-formed bracket, a DAY market buy of class
    BRACKET for a positive quantity whose stop-loss leg is non-negative and
    not above its take-profit leg. *)
Theorem process_symbols_wf_orders `{Env E} (bars_map : py_dict string (list Bar)) :
  runs (process_symbols bars_map) (fun evs _ =>
    forall o r', EvSubmit o r' ∈ evs -> wf_bracket o).
Proof.
  eapply runs_mono; [apply process_symbols_sim|]. intros evs r Hrun o r' Hin.
  destruct (symbols_run_submit _ _ _ _ _ Hrun Hin)
    as (sym & df & p & ps & q & _ & _ & _ & _ & _ & _ & _ & Hrq & -> & Hq).
  apply bracket_request_wf; [exact Hq|]. exact (round_qty_pos_inv _ _ _ Hrq Hq).
Qed.

(** Proves [runs_all f m] for straight-line code built from calls,
    prints, sleeps and returns, given [f] holds of their events. *)
Ltac runs_all_solve :=
  repeat first
    [ apply runs_all_bind; [|intros ?]
    | apply runs_all_try; [|intros ? ? ?]
    | apply runs_all_ret
    | apply runs_all_lift
    | apply runs_all_print; reflexivity
    | apply runs_all_sleep; intros []; reflexivity
    | apply runs_all_sleep_no_kbi; reflexivity
    | apply runs_all_call; intros ?; first [reflexivity | eauto with pyrun]
    | progress case_match
    | progress cbv zeta ].

Lemma get_latest_bars_runs `{Env E} (symbols : list string) (limit : nat) :
  runs (get_latest_bars symbols limit) (fun evs r =>
    exists req rb, evs = [EvGetBars req rb] /\
      r = match rb with Ok [] => Ok None | Ok _ => Ok (Some []) | Exc e => Exc e end).
Proof.
  intros w. unfold get_latest_bars, call. pyrun.
  destruct (get_stock_bars _ (w_env w)) as [[[|row rows]|e] e']; simpl;
    eexists; (split; [reflexivity|]); do 2 eexists; (split; [reflexivity|]);
    [done | by rewrite split_bars_nil | done].
Qed.

(** A cycle in which [get_latest_bars] returned no frame performs only the
    events of its calls, prints and sleeps: no order. *)
Lemma cycle_no_submit `{Env E} (tradable_syms : list string) :
  runs_all (fun ev => negb (is_submit ev)) (cycle tradable_syms).
Proof.
  apply runs_all_try; [|unfold cycle_handler; intros e h' Hh; repeat case_match; simplify_eq;
                         runs_all_solve].
  unfold cycle_body.
  eapply runs_mono;
    [eapply (runs_bind _ _ _ (fun a evs _ => (a = None \/ a = Some []) ->
                                            Forall (fun ev => negb (is_submit ev) = true) evs));
     [apply get_latest_bars_runs|]|].
  - intros [[|[sym df] rest]|]; cbv beta.
    + apply (runs_all_weaken (fun ev => negb (is_submit ev))); [runs_all_solve | auto].
    + apply (runs_all_weaken (fun _ => true));
        [|intros evs r _ [Hc|Hc]; discriminate].
      apply runs_all_bind; [eapply runs_all_trivial, process_symbols_sim | intros; runs_all_solve].
    + apply (runs_all_weaken (fun ev => negb (is_submit ev))); [runs_all_solve | auto].
  - intros evs r [(e & (req & rb & -> & _) & _)|(a & evs1 & evs2 & -> & (req & rb & -> & Ha) & H2)];
      [by repeat constructor|].
    apply Forall_app. split; [by repeat constructor|]. apply H2.
    destruct rb as [[|]|]; simplify_eq; auto.
Qed.

Lemma main_loop_no_submit `{Env E} (fuel : nat) (tradable_syms : list string) :
  runs_all (fun ev => negb (is_submit ev)) (main_loop fuel tradable_syms).
Proof.
  induction fuel as [|n IH]; simpl; [apply runs_all_ret|].
  apply runs_all_bind; [apply cycle_no_submit|]. intros []; [exact IH | apply runs_all_ret].
Qed.

(** C2: the program never trades.  Whatever the broker, the market data
    and the timing of Ctrl+C, no run of [main] submits an order: the
    membership test of [get_latest_bars] drops every symbol, so the [for]
    loop over the bars never runs. *)
Theorem main_never_submits `{Env E} (fuel : nat) :
  runs_all (fun ev => negb (is_submit ev)) (main fuel).
Proof.
  unfold main. apply runs_all_bind; [unfold ensure_tradable; runs_all_solve|].
  intros [|sym syms]; [runs_all_solve|].
  apply runs_all_bind; [runs_all_solve|]. intros _. apply main_loop_no_submit.
Qed.

(** ** Liveness without Ctrl+C *)

Lemma count_bars_app (evs1 evs2 : list Event) :
  count_bars (evs1 ++ evs2) = (count_bars evs1 + count_bars evs2)%nat.
Proof. unfold count_bars. by rewrite List.filter_app, length_app. Qed.

Lemma symbol_run_no_bars (sym : string) (df : list Bar) (evs : list Event) (r : res unit) :
  symbol_run sym df evs r -> count_bars evs = 0%nat.
Proof. inversion 1 as [| | | | |p ps q r0]; subst; [..|destruct r0]; reflexivity. Qed.

Lemma symbols_run_no_bars (bars_map : py_dict string (list Bar)) (evs : list Event) (r : res unit) :
  symbols_run bars_map evs r -> count_bars evs = 0%nat.
Proof.
  induction 1; [done| |by eapply symbol_run_no_bars].
  rewrite count_bars_app, IHsymbols_run. erewrite symbol_run_no_bars by eauto. done.
Qed.

(** The exception a symbol's processing raises comes from [iloc[-1]] or
    from a call, whose event shows it. *)
Lemma symbol_run_exc_no_kbi (sym : string) (df : list Bar) (evs : list Event) (e : PyExn) :
  symbol_run sym df evs (Exc e) -> Forall (fun ev => ev_no_kbi ev = true) evs ->
  e <> KeyboardInterrupt.
Proof.
  inversion 1 as [|p e0| | | |p ps q r0]; subst; intros Hall Hk; subst; [discriminate| |].
  - by inversion Hall.
  - destruct r0; [discriminate|]. simplify_eq. simpl in Hall. rewrite !Forall_cons in Hall.
    naive_solver.
Qed.

Lemma symbols_run_exc_no_kbi (bars_map : py_dict string (list Bar)) (evs : list Event) (e : PyExn) :
  symbols_run bars_map evs (Exc e) -> Forall (fun ev => ev_no_kbi ev = true) evs ->
  e <> KeyboardInterrupt.
Proof.
  intros Hrun. remember (Exc e) as r eqn:Heq. revert Heq.
  induction Hrun as [|sym df rest evs1 evs2 r Hs Hr IH|sym df rest evs1 e' Hs]; intros Heq Hall.
  - discriminate.
  - apply Forall_app in Hall as [_ Hall2]. exact (IH Heq Hall2).
  - injection Heq as <-. by eapply symbol_run_exc_no_kbi.
Qed.

Section Live.
Context {E : Type} `{NoInterrupt E}.

Lemma process_symbols_no_kbi (bars_map : py_dict string (list Bar)) :
  runs_all ev_no_kbi (process_symbols bars_map).
Proof.
  induction bars_map as [|[sym df] rest IH]; simpl; [apply runs_all_ret|].
  apply runs_all_bind; [|intros; exact IH].
  unfold process_symbol, already_open, place_bracket_market. runs_all_solve.
Qed.

Lemma process_symbols_live (bars_map : py_dict string (list Bar)) :
  runs (process_symbols bars_map) (fun evs r => count_bars evs = 0%nat /\ r <> Exc KeyboardInterrupt).
Proof.
  eapply runs_mono; [apply runs_and; [apply process_symbols_sim | apply process_symbols_no_kbi]|].
  intros evs r [Hrun Hall]. split; [by eapply symbols_run_no_bars|].
  intros ->. by eapply symbols_run_exc_no_kbi.
Qed.

Lemma sleep_continue_live :
  runs (time_sleep POLL_SEC;; mret Continue)
       (fun evs r => count_bars evs = 0%nat /\ r = Ok Continue).
Proof.
  eapply runs_mono; [apply runs_bind; [apply runs_sleep_no_kbi | intros; apply runs_ret]|].
  intros evs r [(e & [_ Hc] & _)|(a & evs1 & evs2 & -> & [-> _] & [-> ->])]; [discriminate|done].
Qed.

Lemma print_then_live (m : LogMsg) (k : PyM (World E) LoopCtl) :
  runs k (fun evs r => count_bars evs = 0%nat /\ (r = Ok Continue \/ exists e, r = Exc e /\ e <> KeyboardInterrupt)) ->
  runs (py_print m;; k)
       (fun evs r => count_bars evs = 0%nat /\ (r = Ok Continue \/ exists e, r = Exc e /\ e <> KeyboardInterrupt)).
Proof.
  intros Hk. eapply runs_mono; [apply runs_bind; [apply runs_print | intros; exact Hk]|].
  intros evs r [(e & [_ Hc] & _)|(a & evs1 & evs2 & -> & [-> _] & Hr)]; [discriminate|exact Hr].
Qed.

Lemma cycle_body_live (tradable_syms : list string) :
  runs (cycle_body tradable_syms) (fun evs r =>
    count_bars evs = 1%nat /\ (r = Ok Continue \/ exists e, r = Exc e /\ e <> KeyboardInterrupt)).
Proof.
  assert (Htail : runs (time_sleep POLL_SEC;; mret Continue) (fun evs r => count_bars evs = 0%nat /\
            (r = Ok Continue \/ exists e, r = Exc e /\ e <> KeyboardInterrupt)))
    by (eapply runs_mono; [apply sleep_continue_live|]; intros evs r [? ->]; auto).
  unfold cycle_body. eapply runs_mono.
  { eapply (runs_bind _ _ _ (fun _ evs r => count_bars evs = 0%nat /\
             (r = Ok Continue \/ exists e, r = Exc e /\ e <> KeyboardInterrupt))).
    - apply runs_and; [apply get_latest_bars_runs | unfold get_latest_bars; runs_all_solve].
    - intros [[|[sym df] rest]|]; cbv beta; [by apply print_then_live| |by apply print_then_live].
      eapply runs_mono; [apply runs_bind; [apply process_symbols_live | intros; exact Htail]|].
      intros evs r [(e & [Hc Hk] & ->)|(a & evs1 & evs2 & -> & [Hc1 _] & [Hc2 Hr])].
      + split; [exact Hc|]. right. exists e. split; [done|]. congruence.
      + rewrite count_bars_app, Hc1, Hc2. auto. }
  intros evs r [(e & [(req & rb & -> & Hr) Hall] & ->)|(a & evs1 & evs2 & -> & [(req & rb & -> & _) _] & [Hc Hres])].
  - split; [reflexivity|]. right. exists e. split; [done|]. intros ->.
    destruct rb as [[|]|[]]; simplify_eq. by inversion Hall.
  - rewrite count_bars_app, Hc. split; [reflexivity | exact Hres].
Qed.

Lemma cycle_handler_live (e : PyExn) (h : PyM (World E) LoopCtl) :
  e <> KeyboardInterrupt -> cycle_handler e = Some h ->
  runs h (fun evs r => count_bars evs = 0%nat /\ r = Ok Continue).
Proof.
  intros Hk. unfold cycle_handler. case_bool_decide; [done|].
  destruct (is_Exception e); [|discriminate]. intros [= <-].
  eapply runs_mono; [apply runs_bind; [apply runs_print | intros; apply sleep_continue_live]|].
  intros evs r [(e' & [_ Hc] & _)|(a & evs1 & evs2 & -> & [-> _] & Hr)]; [discriminate|exact Hr].
Qed.

(** One cycle without Ctrl+C always continues, after exactly one poll. *)
Lemma cycle_live (tradable_syms : list string) :
  runs (cycle tradable_syms) (fun evs r => r = Ok Continue /\ count_bars evs = 1%nat).
Proof.
  eapply runs_mono;
    [eapply (runs_try _ _ _ (fun e evs r => e <> KeyboardInterrupt -> count_bars evs = 0%nat /\ r = Ok Continue));
     [apply cycle_body_live|]|].
  { intros e h' Hh. destruct (decide (e = KeyboardInterrupt)) as [->|Hk].
    - apply (runs_all_weaken (fun _ => true)); [|intros; congruence].
      unfold cycle_handler in Hh. rewrite bool_decide_true in Hh by done.
      injection Hh as <-. runs_all_solve.
    - eapply runs_mono; [exact (cycle_handler_live e h' Hk Hh)|]. auto. }
  intros evs r [(a & [Hc [Ha|(e & Ha & _)]] & ->)|(e & evs1 & evs2 & -> & [Hc [Ha|(e' & Ha & Hk)]] & Hh)];
    simplify_eq; [done|].
  destruct Hh as [(Hn & _)|Hh].
  - unfold cycle_handler in Hn. case_bool_decide; [done|].
    match type of Hn with context [is_Exception ?x] => by destruct x end.
  - destruct (Hh Hk) as [Hc2 ->]. rewrite count_bars_app, Hc, Hc2. done.
Qed.

End Live.

(** C7: liveness.  Without Ctrl+C, whatever faults the broker and the
    market data raise, [main_loop n] returns normally after exactly [n]
    cycles, each of which polls the market data once: a failed cycle is
    logged and retried, never fatal. *)
Theorem main_loop_live `{NoInterrupt E} (n : nat) (tradable_syms : list string) :
  runs (main_loop n tradable_syms) (fun evs r => r = Ok tt /\ count_bars evs = n).
Proof.
  induction n as [|n IH]; simpl.
  - eapply runs_mono; [apply runs_ret|]. intros evs r [-> ->]. done.
  - eapply runs_mono;
      [eapply (runs_bind _ _ _ (fun a evs r => a = Continue -> r = Ok tt /\ count_bars evs = n));
       [apply cycle_live|]|].
    + intros []; [eapply runs_mono; [exact IH|]; auto|].
      eapply runs_mono; [apply runs_ret|]. intros; discriminate.
    + intros evs r [(e & [Hc _] & _)|(a & evs1 & evs2 & -> & [Ha Hc1] & Hr)]; [discriminate|].
      injection Ha as ->. destruct (Hr eq_refl) as [-> Hc2]. rewrite count_bars_app, Hc1, Hc2. done.
Qed.

Lemma main_loop_live_witness :
  NoInterrupt Replay.State /\
  runs (E := Replay.State) (main_loop 2 ["AAPL"]%string)
       (fun evs r => r = Ok tt /\ count_bars evs = 2%nat).
Proof. split; [apply _ | apply main_loop_live]. Defined.

(** ** Bounded work per cycle *)

(** One cycle makes exactly one market-data request and at most four
    events: the request, "No bars" or the error line, the sleep, and
    "Exiting" after an interrupted sleep. *)
Lemma cycle_bounded `{Env E} (tradable_syms : list string) :
  runs (cycle tradable_syms) (fun evs _ => count_bars evs = 1%nat /\ (length evs <= 4)%nat).
Proof.
  intros w. unfold cycle, cycle_body, get_latest_bars, cycle_handler, call, py_print, time_sleep, log_event, count_bars. pyrun.
  destruct (get_stock_bars _ (w_env w)) as [[[|row rows]|e] e1]; simpl; [| rewrite split_bars_nil; simpl|].
  1,2: destruct (sleep POLL_SEC e1) as [[] e2]; simpl; eexists; (split; [trace_eq|]); simpl; lia.
  case_bool_decide; simpl; [eexists; (split; [trace_eq|]); simpl; lia|].
  destruct (is_Exception e); simpl; [|eexists; (split; [trace_eq|]); simpl; lia].
  destruct (sleep POLL_SEC e1) as [[] e2]; simpl; eexists; (split; [trace_eq|]); simpl; lia.
Qed.

(** C10: termination with bounded work.  Every cycle of [while True]
    finishes after exactly one market-data request and at most four events,
    so [main_loop] run for [fuel] iterations makes at most [fuel] requests
    and at most four events per request, whether it ends by exhausting the
    fuel, by [break], or by an escaping [KeyboardInterrupt]. *)
Theorem main_loop_bounded `{Env E} (fuel : nat) (tradable_syms : list string) :
  runs (main_loop fuel tradable_syms) (fun evs _ =>
    (count_bars evs <= fuel)%nat /\ (length evs <= 4 * count_bars evs)%nat).
Proof.
  induction fuel as [|n IH]; simpl.
  - eapply runs_mono; [apply runs_ret|]. intros evs r [-> _]. cbv. lia.
  - eapply runs_mono;
      [eapply (runs_bind _ _ _ (fun _ evs _ => (count_bars evs <= n)%nat /\ (length evs <= 4 * count_bars evs)%nat));
       [apply cycle_bounded | intros []; [exact IH | eapply runs_mono; [apply runs_ret | intros ? ? [-> _]; cbv; lia]]]|].
    intros evs r [(e & [Hc Hl] & _)|(a & evs1 & evs2 & -> & [Hc Hl] & [H1 H2])];
      [lia|]. rewrite count_bars_app, length_app. lia.
Qed.

(** ** Concrete runs on the paper account *)

(** [n] minute bars whose closes rise by one dollar from [start]. *)
Definition ramp_bars (start : Z) (n : nat) : list Bar :=
  map (fun i => mkBar (Z.of_nat i) 0 0 0 (inject_Z (start + Z.of_nat i)) 0) (seq 0 n).

(** A paper account with the given positions, rejected symbols, bar
    answers and Ctrl+C schedule; both configured symbols are tradable. *)
Definition paper0 (feed : list (res (list BarRow))) (positions : list Position)
    (reject : list string) (interrupts : list bool) : World Paper.State :=
  {| w_env := {| Paper.feed := feed; Paper.positions := positions;
                 Paper.assets := [{| asset_symbol := "AAPL"; asset_tradable := true |};
                                  {| asset_symbol := "MSFT"; asset_tradable := true |}];
                 Paper.reject := reject; Paper.orders := []; Paper.interrupts := interrupts |};
     w_trace := [] |}.

(** Both symbols break out; the frames of the dict of [get_latest_bars]
    were it to return one. *)
Definition two_breakouts : py_dict string (list Bar) :=
  [("AAPL", ramp_bars 100 21); ("MSFT", ramp_bars 300 21)]%string.

(** The spec's scenario 4 and the fault divergence on the paper
    account.  With an open AAPL position both symbols break out, AAPL is
    skipped and MSFT is ordered; when the broker rejects AAPL's order, the
    cycle never looks at MSFT. *)
Example paper_scenarios :
  count_submits "AAPL" (w_trace (snd (process_symbols two_breakouts
      (paper0 [] [{| pos_symbol := "AAPL"; pos_qty := 10 |}] [] [])))) = 0%nat /\
  count_submits "MSFT" (w_trace (snd (process_symbols two_breakouts
      (paper0 [] [{| pos_symbol := "AAPL"; pos_qty := 10 |}] [] [])))) = 1%nat /\
  w_trace (snd (process_symbols two_breakouts (paper0 [] [] ["AAPL"]%string []))) =
    [EvGetPositions (Ok []);
     EvPrint (MsgBreakout "AAPL" 277 120);
     EvSubmit (bracket_request "AAPL" 277 120) (Exc (APIError "insufficient buying power"))].
Proof. vm_compute. repeat split; reflexivity. Qed.

(** Ctrl+C during the back-off sleep after a failed poll is not caught:
    [main] ends with the [KeyboardInterrupt] instead of printing "Exiting"
    and returning. *)
Example main_interrupt_escapes :
  fst (main 5 (paper0 [Exc (APIError "timeout")] [] [] [true])) = Exc KeyboardInterrupt.
Proof. vm_compute. reflexivity. Qed.

Lemma process_symbols_one_order_witness :
  NoDup two_breakouts.*1 /\
  runs (E := Paper.State) (process_symbols two_breakouts) (fun evs _ =>
    forall x, (count_submits x evs <= 1)%nat /\
              (x ∉ two_breakouts.*1 -> count_submits x evs = 0%nat)).
Proof.
  split; [apply (bool_decide_unpack _); vm_compute; reflexivity|].
  apply process_symbols_one_order. apply (bool_decide_unpack _). vm_compute. reflexivity.
Defined.

(** C20: the spec's scenario 6.  When none of the configured symbols is
    tradable, [main] makes the asset query, prints the diagnostic and
    returns normally, without polling the market data. *)
Theorem main_no_tradable `{Env E} (fuel : nat) (w : World E) (assets : list Asset) (e' : E) :
  get_all_assets (w_env w) = (Ok assets, e') ->
  (forall x, x ∈ SYMBOLS ->
     asset_tradable <$> last (filter (fun a => asset_symbol a = x) assets) <> Some true) ->
  main fuel w = (Ok tt, log_event (EvPrint MsgNoTradable) (log_event (EvGetAssets (Ok assets)) w e') e').
Proof.
  intros Hq Hno. destruct (ensure_tradable_run SYMBOLS w assets e' Hq) as (r & Hr & _ & _ & Hin).
  assert (r = []) as ->.
  { destruct r as [|x r]; [done|]. exfalso.
    destruct (proj1 (Hin x) (proj2 (elem_of_cons _ _ _) (or_introl eq_refl))) as [Hx Ht].
    by apply (Hno x). }
  unfold main, mbind, PyM_bind. rewrite Hr. reflexivity.
Qed.

Lemma main_no_tradable_witness :
  let w := {| w_env := {| Paper.feed := []; Paper.positions := []; Paper.assets := [];
                         Paper.reject := []; Paper.orders := []; Paper.interrupts := [] |};
              w_trace := [] |} in
  get_all_assets (w_env w) = (Ok [], w_env w) /\
  (forall x, x ∈ SYMBOLS ->
     asset_tradable <$> last (filter (fun a => asset_symbol a = x) []) <> Some true) /\
  main 3 w = (Ok tt, log_event (EvPrint MsgNoTradable) (log_event (EvGetAssets (Ok [])) w (w_env w)) (w_env w)).
Proof.
  cbv zeta. split; [reflexivity|]. split; [intros x _; vm_compute; discriminate|].
  apply main_no_tradable; [reflexivity|]. intros x _. vm_compute. discriminate.
Defined.
