(* ===== verification/Account.v ===== *)
(** * Account: the position gate against a broker whose fills are visible

    On the simulated paper account of [Alpaca.Paper] an accepted order
    fills at once and its position appears in the next [get_all_positions].
    Against such a broker the gate of [process_symbol] keeps an invariant of
    the account: no two accepted orders are for the same symbol, and every
    accepted order has its position.  The invariant holds after every run
    of the per-symbol loop, whatever the frames, whatever the order and
    repetition of the symbols in the dict, and whatever the broker
    rejects; this is the spec's "never while a position already exists"
    (section 3) for a broker without fill latency. *)

From S2P Require Import Prelude Signal Sizing Bracket Alpaca Client Loop.

Local Open Scope Q_scope.

#[local] Existing Instance Paper.paper_env.

(** The account's invariant. *)
Definition paper_inv (s : Paper.State) : Prop :=
  NoDup (map mo_symbol (Paper.orders s)) /\
  Forall (fun o => any_symbol (mo_symbol o) (Paper.positions s) = true) (Paper.orders s).

(** ** Lemmas *)

Lemma any_symbol_app (sym : string) (ps qs : list Position) :
  any_symbol sym ps = true -> any_symbol sym (ps ++ qs) = true.
Proof. unfold any_symbol. rewrite existsb_app. intros ->. reflexivity. Qed.

Lemma any_symbol_snoc (sym : string) (ps : list Position) (q : Q) :
  any_symbol sym (ps ++ [{| pos_symbol := sym; pos_qty := q |}]) = true.
Proof.
  unfold any_symbol. rewrite existsb_app. simpl. rewrite bool_decide_true by done.
  by rewrite orb_true_r.
Qed.

(** A symbol without a position has no accepted order. *)
Lemma paper_inv_no_order (s : Paper.State) (sym : string) :
  paper_inv s -> any_symbol sym (Paper.positions s) = false ->
  sym ∉ map mo_symbol (Paper.orders s).
Proof.
  intros [_ Hall] Hno Hin. apply list_elem_of_fmap in Hin as (o & -> & Ho).
  rewrite Forall_forall in Hall. specialize (Hall o Ho). congruence.
Qed.

(** Filling an order for a symbol without a position keeps the invariant. *)
Lemma paper_inv_fill (s : Paper.State) (o : MarketOrderRequest) :
  paper_inv s -> any_symbol (mo_symbol o) (Paper.positions s) = false ->
  paper_inv (Paper.fill s o).
Proof.
  intros Hinv Hno. pose proof (paper_inv_no_order s _ Hinv Hno) as Hnot.
  destruct Hinv as [Hnd Hall]. unfold Paper.fill, paper_inv; simpl. split.
  - rewrite map_app. apply NoDup_app. split; [exact Hnd|]. split; [|by apply NoDup_singleton].
    intros x Hx Hx'. apply list_elem_of_singleton in Hx'. subst x. contradiction.
  - apply Forall_app. split; [|constructor; [apply any_symbol_snoc | constructor]].
    eapply Forall_impl; [exact Hall|]. intros o' Ho'. by apply any_symbol_app.
Qed.

(** On the paper account a symbol's processing leaves the account as it
    was, or fills the bracket order of a symbol the position query showed
    without a position. *)
Lemma process_symbol_paper (sym : string) (df : list Bar) (w : World Paper.State) :
  w_env (snd (process_symbol sym df w)) = w_env w \/
  exists o, mo_symbol o = sym /\ any_symbol sym (Paper.positions (w_env w)) = false /\
            w_env (snd (process_symbol sym df w)) = Paper.fill (w_env w) o.
Proof.
  unfold process_symbol, already_open, place_bracket_market, call. pyrun.
  destruct (py_getitem (closes df) (-1)) as [p|e]; simpl; [|by left].
  destruct (any_symbol sym (Paper.positions (w_env w))) eqn:Ha; simpl; [by left|].
  destruct (calc_signal LOOKBACK df) as [[]|e]; simpl; [|by left|by left].
  destruct (round_qty_ok p risk_budget) as [q ->]; simpl.
  case_bool_decide; simpl; [by left|].
  case_bool_decide; simpl; [by left|].
  right. exists (bracket_request sym q p). by split.
Qed.

(** ** Properties *)

(** C13: invariant.  On the paper account, every run of the per-symbol
    loop keeps the account's invariant: no two accepted orders for one
    symbol, each with its position; even a dict that lists a symbol twice
    gets one order for it, because the second query sees the first fill. *)
Theorem process_symbols_paper_inv (bars_map : py_dict string (list Bar)) (w : World Paper.State) :
  paper_inv (w_env w) -> paper_inv (w_env (snd (process_symbols bars_map w))).
Proof.
  revert w. induction bars_map as [|[sym df] rest IH]; intros w Hinv; simpl; [exact Hinv|].
  unfold mbind, PyM_bind.
  destruct (process_symbol_paper sym df w) as [Heq|(o & Hsym & Hno & Heq)];
    destruct (process_symbol sym df w) as [[[]|e] w1] eqn:Hp; simpl in *;
    try (apply IH); rewrite Heq; try exact Hinv;
    apply paper_inv_fill; [exact Hinv | by rewrite Hsym| exact Hinv | by rewrite Hsym].
Qed.

Lemma process_symbols_paper_inv_witness :
  paper_inv (w_env (paper0 [] [] [] [])) /\
  paper_inv (w_env (snd (process_symbols (two_breakouts ++ two_breakouts) (paper0 [] [] [] [])))).
Proof.
  split; [split; constructor|].
  apply process_symbols_paper_inv. split; constructor.
Defined.
