(* ===== verification/Output.v ===== *)
(** * Output: the lines mvp.py prints (lines 104-140)

    [print] writes [str] of its arguments and a newline.  The f-strings
    format prices with [{last_price:.2f}] ([fmt_2f]: CPython rounds the
    exact value half to even to two decimals, and keeps the minus sign of
    a negative value), quantities with [{qty}] (stdpp's [pretty] on [Z],
    the decimal digits of an [int]), and exceptions with [str(e)]
    ([str_exc]).  [render] is the line of each [LogMsg]; [stdout] the text
    of a trace.  [Live] proves what the whole program prints. *)

From Stdlib Require Import Qabs Ascii.
From stdpp Require Import pretty.
From S2P Require Import Prelude Signal Sizing Bracket Alpaca Client Loop.

#[local] Existing Instance Paper.paper_env.

Local Open Scope Q_scope.
Local Open Scope string_scope.


(** The two decimals of [n mod 100], with a leading zero. *)
Definition two_digits (f : N) : string :=
  if (f <? 10)%N then "0" +:+ pretty f else pretty f.

(** [f"{x:.2f}"]: the magnitude rounded half to even to cents, and a
    minus sign for a negative value, also when it rounds to zero. *)
Definition fmt_2f (x : Q) : string :=
  let n := Z.to_N (round_half_even (Qabs x * 100)) in
  (if Qltb x 0 then "-" else "") +:+ pretty (n `div` 100)%N +:+ "." +:+ two_digits (n `mod` 100)%N.

(** [str(e)] of the exceptions [except Exception as e] prints; pandas'
    [iloc] raises its [IndexError] with this message. *)
Definition str_exc (e : PyExn) : string :=
  match e with
  | KeyboardInterrupt => ""
  | IndexError => "single positional indexer is out-of-bounds"
  | APIError msg => msg
  | ValueError msg => msg
  | ZeroDivisionError msg => msg
  end.

(** A newline, and the ellipsis of ["\nExiting…"] in UTF-8. *)
Definition newline : string := String "010"%char EmptyString.
Definition ellipsis : string := String "226"%char (String "128"%char (String "166"%char EmptyString)).

(** The line of each [print] (without its final newline). *)
Definition render (m : LogMsg) : string :=
  match m with
  | MsgNoTradable => "No tradable symbols found. Check your account permissions/universe."
  | MsgStarting => "Starting loop. Ctrl+C to stop."
  | MsgNoBars => "No bars yet..."
  | MsgPositionOpen sym => "[" +:+ sym +:+ "] position already open. Skipping."
  | MsgQtyZero sym p => "[" +:+ sym +:+ "] qty=0 at price " +:+ fmt_2f p +:+ "."
  | MsgBreakout sym qty p =>
      "[" +:+ sym +:+ "] breakout! sending bracket order: qty=" +:+ pretty qty +:+ " @ ~" +:+ fmt_2f p
  | MsgOrder id status => "  -> order id: " +:+ id +:+ " status: " +:+ status
  | MsgNoSignal sym p => "[" +:+ sym +:+ "] no signal. last=" +:+ fmt_2f p
  | MsgExiting => newline +:+ "Exiting" +:+ ellipsis
  | MsgError e => "Error: " +:+ str_exc e
  end.

(** The text a trace writes to standard output. *)
Definition stdout (evs : list Event) : string :=
  foldr (fun ev out => match ev with EvPrint m => render m +:+ newline +:+ out | _ => out end) "" evs.

(** ** A concrete run *)

(** The spec's scenario 3, end to end on the paper account.  A
    breakout whose latest close is 50 (the frame of 21 closes rising from
    30), with no open position, prints the breakout line with the 666
    shares the budget [100 / 0.003] buys and the price to the cent, submits
    that bracket with legs at 50.20 and 49.85, and prints the order line. *)
Example scenario3_output :
  let w := snd (process_symbols [("AAPL", ramp_bars 30 21)] (paper0 [] [] [] [])) in
  stdout (w_trace w) =
    "[AAPL] breakout! sending bracket order: qty=666 @ ~50.00" +:+ newline +:+
    "  -> order id: paper-AAPL status: accepted" +:+ newline /\
  Paper.orders (w_env w) = [bracket_request "AAPL" 666 50] /\
  tp_price (bracket_request "AAPL" 666 50) = Some (5020 # 100) /\
  sl_price (bracket_request "AAPL" 666 50) = Some (4985 # 100).
Proof. vm_compute. repeat split; reflexivity. Qed.
