(* ===== verification/Config.v ===== *)
(** * Config: the module-level set-up of mvp.py (lines 26-35, 143-144)

    Importing mvp.py runs [load_dotenv()], reads the three [APCA_*]
    variables with [os.getenv], and builds the two Alpaca clients; running
    it as a script then calls [main()].  The process environment is a
    [gmap string string]; the [.env] file is the list of its assignments in
    file order, [None] for a line [KEY] without a value.

    The two libraries the lines call are modelled from their documented
    behaviour: python-dotenv's [load_dotenv] (default [override=False]):
    the file's assignments are collected into a dict, so a later line wins,
    and a key already in the environment is left alone, as is a key whose
    value is [None]; alpaca-py's clients: a client whose [api_key] or
    [secret_key] is missing or empty raises [ValueError]; [TradingClient]
    talks to [url_override] when it is a non-empty string and only
    otherwise chooses the paper or the live endpoint by [paper];
    [StockHistoricalDataClient] talks to the data endpoint. *)

From stdpp Require Import gmap.
From S2P Require Import Prelude Signal Sizing Bracket Alpaca Client Loop.

#[local] Existing Instance Paper.paper_env.

(** [os.environ] *)
Abbreviation Environ := (gmap string string) (only parsing).

(** The assignments of the [.env] file, in order. *)
Definition DotEnv : Type := list (string * option string).

(** [dotenv_values()]: a later assignment of a key replaces an earlier one. *)
Definition dotenv_values (file : DotEnv) : gmap string (option string) :=
  foldl (fun m '(k, v) => <[k := v]> m) ∅ file.

(** [load_dotenv()]: the file's values fill the keys the environment lacks. *)
Definition load_dotenv (file : DotEnv) (environ : Environ) : Environ :=
  environ ∪ omap id (dotenv_values file).

(** [os.getenv(key)] and [os.getenv(key, default)] *)
Definition os_getenv (environ : Environ) (key : string) : option string := environ !! key.
Definition os_getenv_default (environ : Environ) (key default_ : string) : string :=
  default default_ (environ !! key).

(** Python's truth value of an optional string. *)
Definition py_truthy (s : option string) : bool :=
  match s with Some s => negb (bool_decide (s = ""%string)) | None => false end.

(** The module-level constants of lines 27-29. *)
Record Config : Type := {
  API_KEY : option string;
  API_SECRET : option string;
  BASE_URL : string
}.

Definition PAPER_URL : string := "https://paper-api.alpaca.markets".
Definition LIVE_URL : string := "https://api.alpaca.markets".
Definition DATA_URL : string := "https://data.alpaca.markets".

(** Lines 26-29. *)
Definition load_config (file : DotEnv) (environ : Environ) : Config :=
  let env := load_dotenv file environ in
  {| API_KEY := os_getenv env "APCA_API_KEY_ID";
     API_SECRET := os_getenv env "APCA_API_SECRET_KEY";
     BASE_URL := os_getenv_default env "APCA_API_BASE_URL" PAPER_URL |}.

(** A constructed client: its credentials and the endpoint it talks to. *)
Record RESTClient : Type := {
  cl_api_key : string;
  cl_secret_key : string;
  cl_base_url : string
}.

(** The credential check of alpaca-py's clients (no OAuth token). *)
Definition validate_credentials (api_key secret_key : option string) : res (string * string) :=
  if negb (py_truthy api_key) then Exc (ValueError "You must supply a method of authentication")
  else if negb (py_truthy secret_key) then
    Exc (ValueError "A corresponding secret_key must be supplied with the api_key")
  else Ok (default "" api_key, default "" secret_key).

(** [TradingClient(api_key=..., secret_key=..., paper=..., url_override=...)] *)
Definition TradingClient (api_key secret_key : option string) (paper : bool)
    (url_override : option string) : res RESTClient :=
  match validate_credentials api_key secret_key with
  | Exc e => Exc e
  | Ok (k, s) =>
      let base_url :=
        if py_truthy url_override then default "" url_override
        else if paper then PAPER_URL else LIVE_URL in
      Ok {| cl_api_key := k; cl_secret_key := s; cl_base_url := base_url |}
  end.

(** [StockHistoricalDataClient(api_key, secret_key)] *)
Definition StockHistoricalDataClient (api_key secret_key : option string) : res RESTClient :=
  match validate_credentials api_key secret_key with
  | Exc e => Exc e
  | Ok (k, s) => Ok {| cl_api_key := k; cl_secret_key := s; cl_base_url := DATA_URL |}
  end.

(** Lines 26-35: the configuration and the two clients, [trading] first. *)
Definition module_init (file : DotEnv) (environ : Environ) : res (Config * RESTClient * RESTClient) :=
  let cfg := load_config file environ in
  match TradingClient (API_KEY cfg) (API_SECRET cfg) true (Some (BASE_URL cfg)) with
  | Exc e => Exc e
  | Ok trading =>
      match StockHistoricalDataClient (API_KEY cfg) (API_SECRET cfg) with
      | Exc e => Exc e
      | Ok data_client => Ok (cfg, trading, data_client)
      end
  end.

(** [python mvp.py]: the module's set-up, then [main()] (lines 143-144). *)
Definition run_script {E} `{Env E} (file : DotEnv) (environ : Environ) (fuel : nat)
    : PyM (World E) unit :=
  match module_init file environ with
  | Exc e => py_raise e
  | Ok _ => main fuel
  end.

(** ** Lemmas *)

Lemma validate_credentials_no_key (api_key secret_key : option string) :
  py_truthy api_key = false ->
  validate_credentials api_key secret_key = Exc (ValueError "You must supply a method of authentication").
Proof. unfold validate_credentials. by intros ->. Qed.

(** ** Properties *)

(** C9: [paper=True] does not make the trading client paper.  Since
    [BASE_URL] always holds a string, [url_override] decides: the client
    talks to whatever [APCA_API_BASE_URL] names (from the environment or
    [.env]), and to the paper endpoint only when it is unset or empty. *)
Theorem trading_endpoint (file : DotEnv) (environ : Environ)
    (cfg : Config) (trading data_client : RESTClient) :
  module_init file environ = Ok (cfg, trading, data_client) ->
  cl_base_url trading =
  match load_dotenv file environ !! "APCA_API_BASE_URL"%string with
  | Some u => if bool_decide (u = ""%string) then PAPER_URL else u
  | None => PAPER_URL
  end /\ cl_base_url data_client = DATA_URL.
Proof.
  unfold module_init, TradingClient, StockHistoricalDataClient, load_config, os_getenv_default.
  cbn [API_KEY API_SECRET BASE_URL].
  destruct (validate_credentials _ _) as [[k s]|e]; [|discriminate]. intros [= <- <- <-].
  cbn [cl_base_url]. split; [|reflexivity].
  destruct (load_dotenv file environ !! _) as [u|]; unfold py_truthy; simpl;
    [by case_bool_decide | reflexivity].
Qed.

Lemma trading_endpoint_witness :
  let environ : Environ := <["APCA_API_BASE_URL" := LIVE_URL]>
    (<["APCA_API_KEY_ID" := "AK"]> (<["APCA_API_SECRET_KEY" := "SK"]> ∅))%string in
  exists cfg data_client,
    module_init [] environ = Ok (cfg, {| cl_api_key := "AK"; cl_secret_key := "SK";
                                         cl_base_url := LIVE_URL |}, data_client) /\
    (LIVE_URL =
     match load_dotenv [] environ !! "APCA_API_BASE_URL"%string with
     | Some u => if bool_decide (u = ""%string) then PAPER_URL else u
     | None => PAPER_URL
     end /\ cl_base_url data_client = DATA_URL).
Proof.
  cbv zeta. do 2 eexists. split; [vm_compute; reflexivity|].
  eapply (trading_endpoint [] _ _ {| cl_api_key := "AK"; cl_secret_key := "SK"; cl_base_url := LIVE_URL |}).
  vm_compute. reflexivity.
Defined.

(** C26: without an API key in the environment or in [.env], the script
    stops at line 32: building [trading] raises [ValueError], before any
    call to the broker or the market data and before any output. *)
Theorem run_script_no_key `{Env E} (file : DotEnv) (environ : Environ) (fuel : nat) (w : World E) :
  py_truthy (load_dotenv file environ !! "APCA_API_KEY_ID"%string) = false ->
  run_script file environ fuel w =
  (Exc (ValueError "You must supply a method of authentication"), w).
Proof.
  intros Hk. unfold run_script, module_init, TradingClient, load_config, os_getenv.
  cbn [API_KEY]. by rewrite validate_credentials_no_key.
Qed.

Lemma run_script_no_key_witness :
  let w := {| w_env := {| Paper.feed := []; Paper.positions := []; Paper.assets := [];
                         Paper.reject := []; Paper.orders := []; Paper.interrupts := [] |};
              w_trace := [] |} in
  let environ : Environ := <["APCA_API_SECRET_KEY" := "SK"]> ∅ in
  let file : DotEnv := [("APCA_API_KEY_ID", Some "")]%string in
  py_truthy (load_dotenv file environ !! "APCA_API_KEY_ID"%string) = false /\
  run_script file environ 3 w = (Exc (ValueError "You must supply a method of authentication"), w).
Proof.
  cbv zeta. split; [vm_compute; reflexivity|]. apply run_script_no_key. vm_compute. reflexivity.
Defined.
