(* ===== verification/Live.v ===== *)
(** * Live: the program against a market that answers every poll

    [LiveMarket] is one [Env] instance: a market-data service that answers
    a bar request with the bars of the requested symbols completed by the
    current time, at most [limit] rows ([market_rows]); [time.sleep]
    advances that time and is never interrupted, and the broker fills
    accepted orders at once.  It is an environment to run the program in,
    not a model of mvp.py: the theorem below holds of every environment in
    [BarsAnswer], the class of environments whose market-data requests
    always return a frame, and [LiveMarket] shows the class inhabited.

    The theorem of this file is about the whole program's observable
    output: in any environment where the poll never fails and Ctrl+C is
    never pressed, [main] with a tradable symbol prints the start line and
    then "No bars yet..." once per cycle, and nothing else. *)

From stdpp Require Import pretty.
From S2P Require Import Prelude Signal Sizing Bracket Alpaca Client Loop Output.

Local Open Scope Q_scope.
Local Open Scope string_scope.

(** An environment whose market-data requests always return a frame. *)
Class BarsAnswer (E : Type) `{Env E} : Prop :=
  bars_answer : forall req e, exists rows, fst (get_stock_bars req e) = Ok rows.

(** [n] copies of a printed line. *)
Fixpoint lines (n : nat) (l : string) : string :=
  match n with O => "" | S n => l +:+ newline +:+ lines n l end.

(** ** A live market *)

Module LiveMarket.

(** The minute bars of the current day of each symbol, oldest first. *)
Definition DayBars : Type := string -> list Bar.

(** The rows of one symbol, as the data frame lists them. *)
Definition rows_of (day : DayBars) (sym : string) : list BarRow :=
  map (fun b => {| row_symbol := sym; row_bar := b |}) (day sym).

(** The answer to a bar request: the rows of the requested symbols in
    request order, at most [limit] of them. *)
Definition market_rows (day : DayBars) (req : StockBarsRequest) : list BarRow :=
  take (req_limit req) (concat (map (rows_of day) (req_symbols req))).

Record State : Type := {
  clock : Z;                  (** seconds since the open *)
  day : DayBars;              (** the bars of the whole day, per symbol *)
  positions : list Position;
  assets : list Asset;
  orders : list MarketOrderRequest
}.

(** The bars completed by the current time: bar [t] covers minute [t]. *)
Definition visible (s : State) : DayBars :=
  fun x => filter (fun b => ((timestamp b + 1) * 60 <= clock s)%Z) (day s x).

Definition after (s : State) (secs : Z) : State :=
  {| clock := clock s + secs; day := day s; positions := positions s;
     assets := assets s; orders := orders s |}.

Definition fill (s : State) (o : MarketOrderRequest) : State :=
  {| clock := clock s; day := day s;
     positions := positions s ++ [{| pos_symbol := mo_symbol o; pos_qty := inject_Z (mo_qty o) |}];
     assets := assets s; orders := orders s ++ [o] |}.

#[export] Instance live_env : Env State := {|
  get_stock_bars := fun req s => (Ok (market_rows (visible s) req), s);
  get_all_positions := fun s => (Ok (positions s), s);
  submit_order := fun o s =>
    (Ok {| order_id := "live-" +:+ mo_symbol o; order_status := "accepted" |}, fill s o);
  get_all_assets := fun s => (Ok (assets s), s);
  sleep := fun secs s => (false, after s secs)
|}.

#[export] Instance live_no_interrupt : NoInterrupt State.
Proof. split; intros; simpl; congruence. Qed.

#[export] Instance live_bars_answer : BarsAnswer State.
Proof. intros req s. by eexists. Qed.

End LiveMarket.

(** ** Lemmas *)

Lemma string_app_assoc (s1 s2 s3 : string) : (s1 +:+ s2) +:+ s3 = s1 +:+ (s2 +:+ s3).
Proof. induction s1 as [|a s1 IH]; [done|]. exact (f_equal (String a) IH). Qed.

Lemma stdout_app (evs1 evs2 : list Event) : stdout (evs1 ++ evs2) = stdout evs1 +:+ stdout evs2.
Proof.
  induction evs1 as [|ev evs1 IH]; [done|]. cbn [app stdout foldr].
  unfold stdout in *. simpl. rewrite IH. destruct ev; [done..|]. by rewrite !string_app_assoc.
Qed.

Section Quiet.
Context {E : Type} `{NoInterrupt E} `{!BarsAnswer E}.

(** A cycle in which the poll returns a frame prints "No bars yet...",
    sleeps without interruption and continues. *)
Lemma cycle_quiet (tradable_syms : list string) :
  runs (cycle tradable_syms) (fun evs r => r = Ok Continue /\ stdout evs = lines 1 "No bars yet...").
Proof.
  intros w.
  destruct (bars_answer {| req_symbols := tradable_syms; req_timeframe := BAR_TIMEFRAME;
                          req_limit := LIMIT |} (w_env w)) as [rows Hr].
  unfold cycle, cycle_body, get_latest_bars, call, py_print, time_sleep, log_event. pyrun.
  destruct (get_stock_bars _ (w_env w)) as [r e1]. simpl in Hr. subst r.
  pose proof (sleep_no_kbi POLL_SEC e1) as Hs.
  destruct rows as [|row rows]; simpl; [|rewrite split_bars_nil; simpl];
    destruct (sleep POLL_SEC e1) as [b e2]; simpl in Hs; subst b; simpl;
    eexists; (split; [trace_eq | split; reflexivity]).
Qed.

Lemma main_loop_quiet (n : nat) (tradable_syms : list string) :
  runs (main_loop n tradable_syms) (fun evs r => r = Ok tt /\ stdout evs = lines n "No bars yet...").
Proof.
  induction n as [|n IH]; simpl.
  - eapply runs_mono; [apply runs_ret|]. intros evs r [-> ->]. done.
  - eapply runs_mono;
      [eapply (runs_bind _ _ _ (fun a evs r => a = Continue ->
                                 r = Ok tt /\ stdout evs = lines n "No bars yet..."));
       [apply cycle_quiet|]|].
    + intros []; [eapply runs_mono; [exact IH|]; auto|].
      eapply runs_mono; [apply runs_ret|]. intros; discriminate.
    + intros evs r [(e & [Hc _] & _)|(a & evs1 & evs2 & -> & [Ha Hs1] & Hr)]; [discriminate|].
      injection Ha as ->. destruct (Hr eq_refl) as [-> Hs2].
      split; [done|]. rewrite stdout_app, Hs1, Hs2. simpl. by rewrite !string_app_assoc.
Qed.

End Quiet.

(** ** Properties *)

(** C11: the whole program's output.  In any environment in which the
    market-data poll always returns a frame and Ctrl+C is never pressed,
    [main] run for [n] cycles, when some configured symbol is tradable,
    returns normally and prints exactly the start line followed by
    "No bars yet..." once per cycle: no signal, order or error line ever
    appears. *)
Theorem main_output_quiet `{NoInterrupt E} `{!BarsAnswer E} (n : nat) (w : World E)
    (assets : list Asset) (e1 : E) :
  get_all_assets (w_env w) = (Ok assets, e1) ->
  (exists x, x ∈ SYMBOLS /\
     asset_tradable <$> last (filter (fun a => asset_symbol a = x) assets) = Some true) ->
  exists evs, w_trace (snd (main n w)) = (w_trace w ++ evs)%list /\ fst (main n w) = Ok tt /\
    stdout evs = "Starting loop. Ctrl+C to stop." +:+ newline +:+ lines n "No bars yet...".
Proof.
  intros Hq (x & Hx & Ht).
  destruct (ensure_tradable_run SYMBOLS w assets e1 Hq) as (r & Hr & _ & _ & Hin).
  assert (Hxr : x ∈ r) by (apply Hin; by split).
  unfold main, mbind, PyM_bind. rewrite Hr.
  destruct r as [|y r]; [by apply elem_of_nil in Hxr|]. cbv iota.
  set (w1 := log_event (EvGetAssets (Ok assets)) w e1).
  unfold py_print at 1. cbv beta.
  set (w2 := log_event (EvPrint MsgStarting) w1 (w_env w1)).
  destruct (main_loop_quiet n (y :: r) w2) as (evs & Htr & Hres & Hout).
  exists ([EvGetAssets (Ok assets); EvPrint MsgStarting] ++ evs)%list. split; [|split].
  - rewrite Htr. unfold w2, w1, log_event. simpl. by rewrite <- !app_assoc.
  - exact Hres.
  - rewrite stdout_app, Hout. reflexivity.
Qed.

#[local] Existing Instances LiveMarket.live_env LiveMarket.live_no_interrupt LiveMarket.live_bars_answer.

Lemma main_output_quiet_witness :
  let w := {| w_env := {| LiveMarket.clock := 34200; LiveMarket.day := fun _ => ramp_bars 100 400;
                         LiveMarket.positions := [];
                         LiveMarket.assets := [{| asset_symbol := "AAPL"; asset_tradable := true |}];
                         LiveMarket.orders := [] |};
              w_trace := [] |} in
  get_all_assets (w_env w) = (Ok (LiveMarket.assets (w_env w)), w_env w) /\
  (exists x, x ∈ SYMBOLS /\
     asset_tradable <$> last (filter (fun a => asset_symbol a = x) (LiveMarket.assets (w_env w))) = Some true) /\
  exists evs, w_trace (snd (main 3 w)) = (w_trace w ++ evs)%list /\ fst (main 3 w) = Ok tt /\
    stdout evs = "Starting loop. Ctrl+C to stop." +:+ newline +:+ lines 3 "No bars yet...".
Proof.
  cbv zeta. split; [reflexivity|].
  assert (Hx : exists x, x ∈ SYMBOLS /\
     asset_tradable <$> last (filter (fun a => asset_symbol a = x)
       [{| asset_symbol := "AAPL"; asset_tradable := true |}]) = Some true).
  { exists "AAPL". split; [constructor | reflexivity]. }
  split; [exact Hx|]. apply (main_output_quiet 3 _ [{| asset_symbol := "AAPL"; asset_tradable := true |}] (LiveMarket.Build_State 34200 (fun _ => ramp_bars 100 400) [] [{| asset_symbol := "AAPL"; asset_tradable := true |}] [])); [reflexivity | exact Hx].
Defined.
